(** * A shallow embedding of the search engine (app/search_engine.py, app/main.py)

    The engine ranks a corpus of records against a free-text query with four
    strategies (TF-IDF, truncated SVD, NMF, BERT embeddings).  The numerical
    kernels it calls -- scikit-learn's vectorizer, cosine similarity and
    factorizations, NumPy's [argsort], the BERT encoder, the file holding
    the pickled embeddings -- live outside the repository; they enter the development as interfaces (type classes) whose
    laws are the shape facts the engine relies on.  Everything the repository
    itself writes -- boosts, masks, slicing, the order of the checks, the
    errors -- is embedded as executable definitions.

    Scores are NumPy float64 values in the source.  The embedding takes them
    in the ordered field [Q]: the properties studied here depend on sign,
    zero, order and the ring operations, not on rounding.  The infinities
    and NaN, which a float64 boost can carry, have no counterpart in [Q]:
    every statement about boosts is about finite ones. *)

From Stdlib Require Import ZArith QArith Lqa Ascii String Sorting.Sorted Sorting.Permutation.
From stdpp Require Import base option list gmap strings pretty fin_maps sorting.

Local Open Scope string_scope.
Local Open Scope Z_scope.

(** ** Python values and exceptions *)

Inductive exn : Type :=
  | ValueError (msg : string)
  | KeyError (key : string)
  | IndexError (msg : string)
  | AttributeError (msg : string).

Inductive result (A : Type) : Type :=
  | Ok (a : A)
  | Raise (e : exn).
Arguments Ok {A} a.
Arguments Raise {A} e.

#[global] Instance result_ret : MRet result := λ A a, Ok a.
#[global] Instance result_bind : MBind result := λ A B k m,
  match m with
  | Ok a => k a
  | Raise e => Raise e
  end.

#[global] Instance exn_eq_dec : EqDecision exn.
Proof. solve_decision. Defined.
#[global] Instance result_eq_dec {A : Type} `{EqDecision A} : EqDecision (result A).
Proof. solve_decision. Defined.

Definition is_ok {A : Type} (m : result A) : bool :=
  match m with Ok _ => true | Raise _ => false end.

(** A cell of a DataFrame or of a result dictionary. *)
Inductive cell : Type :=
  | Str (s : string)
  | Num (q : Q)
  | NaN.

#[global] Instance Q_eq_dec : EqDecision Q.
Proof. solve_decision. Defined.
#[global] Instance cell_eq_dec : EqDecision cell.
Proof. solve_decision. Defined.

Abbreviation vector := (list Q).
Abbreviation matrix := (list (list Q)).
Abbreviation record := (gmap string string).
Abbreviation row := (gmap string cell).

(** [d[key]] on a Python dict. *)
Definition getitem {V : Type} (m : gmap string V) (key : string) : result V :=
  match m !! key with
  | Some v => Ok v
  | None => Raise (KeyError key)
  end.

(** ** NumPy *)

(** Element-wise binary operation on one-dimensional arrays, with NumPy's
    broadcasting rule: equal lengths, or one operand of length one. *)
Definition np_binop (f : Q → Q → Q) (a b : vector) : result vector :=
  if decide (length a = length b) then Ok (zip_with f a b)
  else match a, b with
       | _, [y] => Ok (map (λ x, f x y) a)
       | [x], _ => Ok (map (f x) b)
       | _, _ => Raise (ValueError "operands could not be broadcast together")
       end.

Definition np_zeros (n : nat) : vector := replicate n 0%Q.

(** A boolean array used as a factor is read as 1.0 / 0.0. *)
Definition bool_to_Q (b : bool) : Q := if b then 1%Q else 0%Q.

(** [a[:k]] for a Python integer [k]: a negative bound counts from the end. *)
Definition py_slice_to {A : Type} (k : Z) (a : list A) : list A :=
  if decide (0 ≤ k) then take (Z.to_nat k) a
  else take (length a - Z.to_nat (- k)) a.

(** [a[idx]] with an integer index array. *)
Fixpoint np_take {A : Type} (a : list A) (idx : list nat) : result (list A) :=
  match idx with
  | [] => Ok []
  | i :: idx' =>
      match a !! i with
      | Some x => xs ← np_take a idx'; Ok (x :: xs)
      | None => Raise (IndexError "index out of bounds")
      end
  end.

(** [np.argsort] is called with its default [kind] ('quicksort'), which
    NumPy documents as not stable.  What the engine may rely on is stated in
    [NumPyLaws]: the result is an index permutation that puts the array in
    ascending order, nothing more. *)
Class NumPy : Type := {
  argsort : vector → list nat
}.

(** ** scikit-learn and the BERT encoder *)

(** [tfidf_transform] stands for [cv.transform([query])], a single row;
    [cosine_similarity X q] for [cosine_similarity(X, q).flatten()].  The
    factorizations are fitted with [random_state=None], so they draw from
    the global generator, threaded here as [RandomState]. *)
Class Sklearn : Type := {
  TfidfVectorizer : Type;
  tfidf_fit_transform :
    gmap string cell → list cell → result (TfidfVectorizer * matrix);
  tfidf_transform : TfidfVectorizer → string → vector;
  cosine_similarity : matrix → vector → vector;
  RandomState : Type;
  TruncatedSVD : Type;
  svd_fit_transform :
    Z → matrix → RandomState → result (TruncatedSVD * matrix) * RandomState;
  svd_transform : TruncatedSVD → vector → vector;
  NMF : Type;
  nmf_fit_transform :
    Z → matrix → RandomState → result (NMF * matrix) * RandomState;
  nmf_transform : NMF → vector → vector
}.

(** Tokenizer, model and mean pooling of the last hidden state, as one map
    from a text to its embedding; the tokenizer or the model may raise. *)
Class Transformers : Type := {
  bert_encode : string → result vector
}.

(** What [open(save_path, 'wb')] followed by [pickle.dump] comes to: the
    file is written, or [open] raises and nothing is touched, or the dump
    raises and leaves a file that cannot be read back. *)
Inductive write_outcome : Type := Written | OpenFailed | DumpFailed.

Class FileSystem : Type := {
  pickle_dump : string → write_outcome
}.

(** ** pandas *)

Abbreviation DataFrame := (list (gmap string string)).

(** [pd.DataFrame(records)]: the columns are the keys met in any record. *)
Definition columns (d : DataFrame) : gset string := ⋃ (dom <$> d).

Definition cell_of (o : option string) : cell :=
  match o with Some s => Str s | None => NaN end.

(** [df[field]]: a missing column is a [KeyError], a missing cell is NaN. *)
Definition df_column (d : DataFrame) (field : string) : result (list cell) :=
  if decide (field ∈ columns d) then Ok ((λ r : record, cell_of (r !! field)) <$> d)
  else Raise (KeyError field).

Definition cell_eqb (c : cell) (value : string) : bool :=
  match c with
  | Str s => bool_decide (s = value)
  | _ => false
  end.

(** [df.iloc[idx]] *)
Definition iloc (d : DataFrame) (idx : list nat) : result DataFrame :=
  match np_take d idx with
  | Ok rs => Ok rs
  | Raise _ => Raise (IndexError "positional indexers are out-of-bounds")
  end.

(** One dictionary of [results.to_dict(orient='records')] after
    [results['score'] = ...]: every column of the frame, NaN where the record
    has no value, and the score. *)
Definition to_dict_row (cols : gset string) (r : record) (s : Q) : row :=
  <["score" := Num s]> ((Str <$> r) ∪ gset_to_gmap NaN cols).

Definition row_score (x : row) : Q :=
  match x !! "score" with Some (Num q) => q | _ => 0%Q end.

(** ** The engine *)

Section Engine.
Context `{NumPy, Sklearn, Transformers, FileSystem}.

Record SearchEngine : Type := {
  text_fields : list string;
  matrices : gmap string matrix;
  vectorizers : gmap string TfidfVectorizer;
  embeddings : option matrix;
  df : option DataFrame;
  bert_available : bool
}.

Definition default_text_fields : list string := ["section"; "question"; "text"].

Definition default_vectorizer_params : gmap string cell :=
  {[ "stop_words" := Str "english"; "min_df" := Num 3 ]}.

(** [__init__]; [bert_loaded] tells whether the pretrained model could be
    loaded. *)
Definition init (text_fields : list string) (bert_loaded : bool) : SearchEngine :=
  {| text_fields := text_fields; matrices := ∅; vectorizers := ∅;
     embeddings := None; df := None; bert_available := bert_loaded |}.

Definition set_field_model (f : string) (X : matrix) (cv : TfidfVectorizer)
    (e : SearchEngine) : SearchEngine :=
  {| text_fields := text_fields e;
     matrices := <[f := X]> (matrices e);
     vectorizers := <[f := cv]> (vectorizers e);
     embeddings := embeddings e; df := df e;
     bert_available := bert_available e |}.

Definition set_df (d : DataFrame) (e : SearchEngine) : SearchEngine :=
  {| text_fields := text_fields e; matrices := matrices e;
     vectorizers := vectorizers e; embeddings := embeddings e;
     df := Some d; bert_available := bert_available e |}.

Definition set_embeddings (E : matrix) (e : SearchEngine) : SearchEngine :=
  {| text_fields := text_fields e; matrices := matrices e;
     vectorizers := vectorizers e; embeddings := Some E;
     df := df e; bert_available := bert_available e |}.

(** The loop of [fit]; an exception leaves the fields fitted so far. *)
Fixpoint fit_fields (d : DataFrame) (params : gmap string cell)
    (fields : list string) (e : SearchEngine) : result () * SearchEngine :=
  match fields with
  | [] => (Ok (), e)
  | f :: fields' =>
      match df_column d f with
      | Raise x => (Raise x, e)
      | Ok col =>
          match tfidf_fit_transform params col with
          | Raise x => (Raise x, e)
          | Ok (cv, X) => fit_fields d params fields' (set_field_model f X cv e)
          end
      end
  end.

Definition fit (records : DataFrame) (params : gmap string cell)
    (e : SearchEngine) : result () * SearchEngine :=
  fit_fields records params (text_fields e) (set_df records e).

(** *** Scoring *)

(** The boost loop of [search_tfidf]. *)
Fixpoint tfidf_scores (e : SearchEngine) (query : string) (boost : gmap string Q)
    (fields : list string) (score : vector) : result vector :=
  match fields with
  | [] => Ok score
  | f :: fields' =>
      let b := default 1%Q (boost !! f) in
      cv ← getitem (vectorizers e) f;
      let q := tfidf_transform cv query in
      X ← getitem (matrices e) f;
      let s := cosine_similarity X q in
      score' ← np_binop Qplus score (Qmult b <$> s);
      tfidf_scores e query boost fields' score'
  end.

(** The filter loop shared by [search_tfidf], [search_svd] and
    [search_bert]: [score = score * (df[field] == value).values]. *)
Fixpoint apply_filters (d : DataFrame) (filters : list (string * string))
    (score : vector) : result vector :=
  match filters with
  | [] => Ok score
  | (field, value) :: filters' =>
      col ← df_column d field;
      let mask := (λ c, cell_eqb c value) <$> col in
      score' ← np_binop Qmult score (bool_to_Q <$> mask);
      apply_filters d filters' score'
  end.

(** The last four lines of every strategy. *)
Definition top_idx (score : vector) (n_results : Z) : list nat :=
  py_slice_to n_results (argsort (Qopp <$> score)).

Definition top_results (d : DataFrame) (score : vector) (n_results : Z)
    : result (list row) :=
  let idx := top_idx score n_results in
  results ← iloc d idx;
  scores ← np_take score idx;
  Ok (zip_with (to_dict_row (columns d)) results scores).

Definition not_fitted {A : Type} : result A :=
  Raise (ValueError "Devi prima chiamare fit() per preparare il motore").

Definition search_tfidf (e : SearchEngine) (query : string) (n_results : Z)
    (boost : gmap string Q) (filters : list (string * string))
    : result (list row) :=
  match df e with
  | None => not_fitted
  | Some d =>
      score ← tfidf_scores e query boost (text_fields e) (np_zeros (length d));
      score ← apply_filters d filters score;
      top_results d score n_results
  end.

Definition search_svd (e : SearchEngine) (query field : string)
    (n_components n_results : Z) (filters : list (string * string))
    (g : RandomState) : result (list row) * RandomState :=
  match df e with
  | None => (not_fitted, g)
  | Some d =>
      match getitem (matrices e) field with
      | Raise x => (Raise x, g)
      | Ok X =>
          match svd_fit_transform n_components X g with
          | (Raise x, g') => (Raise x, g')
          | (Ok (svd, X_emb), g') =>
              (cv ← getitem (vectorizers e) field;
               let q := tfidf_transform cv query in
               let q_emb := svd_transform svd q in
               let score := cosine_similarity X_emb q_emb in
               score ← apply_filters d filters score;
               top_results d score n_results, g')
          end
      end
  end.

(** [search_nmf] takes [filters] and never reads it. *)
Definition search_nmf (e : SearchEngine) (query field : string)
    (n_components n_results : Z) (filters : list (string * string))
    (g : RandomState) : result (list row) * RandomState :=
  match df e with
  | None => (not_fitted, g)
  | Some d =>
      match getitem (matrices e) field with
      | Raise x => (Raise x, g)
      | Ok X =>
          match nmf_fit_transform n_components X g with
          | (Raise x, g') => (Raise x, g')
          | (Ok (nmf, X_emb), g') =>
              (cv ← getitem (vectorizers e) field;
               let q := tfidf_transform cv query in
               let q_emb := nmf_transform nmf q in
               let score := cosine_similarity X_emb q_emb in
               top_results d score n_results, g')
          end
      end
  end.

Definition search_bert (e : SearchEngine) (query field : string)
    (n_results : Z) (filters : list (string * string)) : result (list row) :=
  match embeddings e with
  | None =>
      Raise (ValueError "BERT embeddings non caricati. Usa load_bert_embeddings()")
  | Some E =>
      match df e with
      | None => not_fitted
      | Some d =>
          if bert_available e then
            query_emb ← bert_encode query;
            let score := cosine_similarity E query_emb in
            score ← apply_filters d filters score;
            top_results d score n_results
          else Raise (AttributeError "tokenizer")
      end
  end.

(** *** Metadata *)

Definition get_available_methods (e : SearchEngine) : list string :=
  let methods := ["tfidf"; "svd"; "nmf"] in
  if embeddings e is Some _ then (methods ++ ["bert"])%list else methods.

(** [Series.unique()]: the distinct cells, in order of first appearance. *)
Definition unique (col : list cell) : list cell :=
  foldl (λ (seen : list cell) c, if decide (c ∈ seen) then seen else (seen ++ [c])%list)
    [] col.

Definition get_available_courses (e : SearchEngine) : result (list cell) :=
  match df e with
  | Some d => col ← df_column d "course"; Ok (unique col)
  | None => Ok []
  end.

(** *** The embedding store *)

(** [doc.get(key, '')] inside the f-string, for a [doc] of
    [df.to_dict('records')]: a column the record has no value for holds NaN,
    which formats as [nan]. *)
Definition doc_get (cols : gset string) (doc : record) (key : string) : string :=
  match doc !! key with
  | Some v => v
  | None => if decide (key ∈ cols) then "nan" else ""
  end.

(** The text handed to the tokenizer in [create_bert_embeddings]. *)
Definition document_text (cols : gset string) (doc : record) : string :=
  doc_get cols doc "text" +:+ " " +:+ doc_get cols doc "question" +:+ " "
    +:+ doc_get cols doc "section".

(** The readable files holding pickled matrices, by path. *)
Abbreviation files := (gmap string (list (list Q))).

(** The loop of [create_bert_embeddings] over the documents; it stops at the
    first text the encoder raises on. *)
Fixpoint encode_documents (texts : list string) : result (list (list Q)) :=
  match texts with
  | [] => Ok []
  | text :: texts' =>
      embedding ← bert_encode text;
      embeddings ← encode_documents texts';
      Ok (embedding :: embeddings)
  end.

Definition load_bert_embeddings (filepath : string) (e : SearchEngine)
    (fs : files) : bool * SearchEngine :=
  match fs !! filepath with
  | Some E => (true, set_embeddings E e)
  | None => (false, e)
  end.

(** Every exception inside the [try] block -- no frame, a failing encoder,
    a failing write -- is caught and answered with [False]. *)
Definition create_bert_embeddings (save_path : string) (e : SearchEngine)
    (fs : files) : bool * SearchEngine * files :=
  if bert_available e then
    match df e with
    | None => (false, e, fs)
    | Some d =>
        match encode_documents (document_text (columns d) <$> d) with
        | Raise _ => (false, e, fs)
        | Ok E =>
            (* [self.embeddings] is assigned before the file is opened *)
            let e' := set_embeddings E e in
            match pickle_dump save_path with
            | Written => (true, e', <[save_path := E]> fs)
            | OpenFailed => (false, e', fs)
            | DumpFailed => (false, e', delete save_path fs)
            end
        end
    end
  else (false, e, fs).

Definition load_or_create_bert_embeddings (filepath : string)
    (e : SearchEngine) (fs : files) : bool * SearchEngine * files :=
  match load_bert_embeddings filepath e fs with
  | (true, e') => (true, e', fs)
  | (false, e') => create_bert_embeddings filepath e' fs
  end.

(** ** The HTTP handler (app/main.py) *)

Record SearchRequest : Type := {
  query : string;
  method : string;
  n_results : Z;
  boost : gmap string Q;
  filters : list (string * string);
  field : string;
  n_components : Z
}.

(** The response without its [execution_time], a wall-clock reading. *)
Record SearchResponse : Type := {
  results : list row;
  response_method : string;
  response_query : string;
  total_results : nat
}.

Inductive http : Type :=
  | Response (r : SearchResponse)
  | HTTPException (status_code : Z) (detail : string).

#[global] Instance SearchResponse_eq_dec : EqDecision SearchResponse.
Proof. solve_decision. Defined.
#[global] Instance http_eq_dec : EqDecision http.
Proof. solve_decision. Defined.

(** A Python [str] is held as its UTF-8 bytes.  [str.strip()] removes the
    code points for which [str.isspace()] holds: U+0009..U+000D,
    U+001C..U+0020, U+0085, U+00A0, U+1680, U+2000..U+200A, U+2028, U+2029,
    U+202F, U+205F and U+3000, of one, two or three bytes. *)
Definition isspace_1 (a : ascii) : bool :=
  let n := nat_of_ascii a in
  ((9 <=? n) && (n <=? 13) || (28 <=? n) && (n <=? 32))%nat.

Definition isspace_2 (a b : ascii) : bool :=
  let m := nat_of_ascii a in
  let n := nat_of_ascii b in
  ((m =? 194) && ((n =? 133) || (n =? 160)))%nat.

Definition isspace_3 (a b c : ascii) : bool :=
  let l := nat_of_ascii a in
  let m := nat_of_ascii b in
  let n := nat_of_ascii c in
  ((l =? 225) && (m =? 154) && (n =? 128)
   || (l =? 226) && (m =? 128)
      && ((128 <=? n) && (n <=? 138) || (n =? 168) || (n =? 169) || (n =? 175))
   || (l =? 226) && (m =? 129) && (n =? 159)
   || (l =? 227) && (m =? 128) && (n =? 128))%nat.

Fixpoint lstrip (s : string) : string :=
  match s with
  | EmptyString => EmptyString
  | String a s1 =>
      if isspace_1 a then lstrip s1
      else match s1 with
           | String b s2 =>
               if isspace_2 a b then lstrip s2
               else match s2 with
                    | String c s3 => if isspace_3 a b c then lstrip s3 else s
                    | EmptyString => s
                    end
           | EmptyString => s
           end
  end.

(** The same from the end, on the reversed bytes. *)
Fixpoint lstrip_reversed (s : string) : string :=
  match s with
  | EmptyString => EmptyString
  | String c s1 =>
      if isspace_1 c then lstrip_reversed s1
      else match s1 with
           | String b s2 =>
               if isspace_2 b c then lstrip_reversed s2
               else match s2 with
                    | String a s3 =>
                        if isspace_3 a b c then lstrip_reversed s3 else s
                    | EmptyString => s
                    end
           | EmptyString => s
           end
  end.

Definition rstrip (s : string) : string :=
  String.rev (lstrip_reversed (String.rev s)).

Definition strip (s : string) : string := rstrip (lstrip s).

(** [str(e)] for the exceptions of the engine. *)
Definition str_exn (x : exn) : string :=
  match x with
  | ValueError msg | IndexError msg | AttributeError msg => msg
  | KeyError key => "'" +:+ key +:+ "'"
  end.

(** The body of the [try] block: the engine call chosen by [method].  A
    [HTTPException] raised inside the block is an [Exception] too. *)
Inductive raised : Type :=
  | Engine (x : exn)
  | Http (status_code : Z) (detail : string).

Definition dispatch (e : SearchEngine) (request : SearchRequest)
    (g : RandomState) : (list row + raised) * RandomState :=
  let lift (r : result (list row)) : list row + raised :=
    match r with Ok x => inl x | Raise x => inr (Engine x) end in
  if decide (method request = "tfidf") then
    (lift (search_tfidf e (query request) (n_results request)
             (boost request) (filters request)), g)
  else if decide (method request = "svd") then
    let '(r, g') := search_svd e (query request) (field request)
                      (n_components request) (n_results request)
                      (filters request) g in
    (lift r, g')
  else if decide (method request = "nmf") then
    let '(r, g') := search_nmf e (query request) (field request)
                      (n_components request) (n_results request)
                      (filters request) g in
    (lift r, g')
  else if decide (method request = "bert") then
    if decide ("bert" ∈ get_available_methods e) then
      (lift (search_bert e (query request) (field request)
               (n_results request) (filters request)), g)
    else (inr (Http 400 "Metodo BERT non disponibile. Gli embeddings non sono stati caricati correttamente."), g)
  else (inr (Http 400 ("Metodo non supportato: " +:+ method request)), g).

Definition str_raised (x : raised) : string :=
  match x with
  | Engine x => str_exn x
  | Http status_code detail => pretty status_code +:+ ": " +:+ detail
  end.

Definition search (e : SearchEngine) (request : SearchRequest)
    (g : RandomState) : http * RandomState :=
  if decide (strip (query request) = "") then
    (HTTPException 400 "La query non può essere vuota", g)
  else if decide (n_results request ≤ 0 ∨ n_results request > 100) then
    (HTTPException 400 "n_results deve essere tra 1 e 100", g)
  else if decide ((method request = "svd" ∨ method request = "nmf")
                  ∧ (n_components request ≤ 0 ∨ n_components request > 100)) then
    (HTTPException 400 "n_components deve essere tra 1 e 100", g)
  else
    match dispatch e request g with
    | (inl results, g') =>
        (Response {| results := results;
                     response_method := method request;
                     response_query := query request;
                     total_results := length results |}, g')
    | (inr x, g') =>
        (HTTPException 500 ("Errore durante la ricerca: " +:+ str_raised x), g')
    end.

(** *** Startup and the metadata routes (app/main.py) *)

(** One entry of the downloaded [documents.json]. *)
Record Course : Type := {
  course : string;
  documents : list (gmap string string)
}.

(** The loop of [startup_event] (and of [load_documents_from_github]) that
    stamps every document with the name of its course. *)
Definition flatten_documents (documents_raw : list Course) : DataFrame :=
  documents_raw ≫= λ c, (λ doc, <["course" := course c]> doc) <$> documents c.

(** [startup_event], given the downloaded courses: an exception raised by
    [fit] is caught and skips the embedding step. *)
Definition startup_event (documents_raw : list Course) (e : SearchEngine)
    (fs : files) : SearchEngine * files :=
  let documents := flatten_documents documents_raw in
  match fit documents default_vectorizer_params e with
  | (Raise _, e') => (e', fs)
  | (Ok _, e') =>
      let '(_, e'', fs') := load_or_create_bert_embeddings "embeddings.bin" e' fs in
      (e'', fs')
  end.

(** The body of [root] and of [get_methods]. *)
Definition get_methods (e : SearchEngine) : result (list string * list cell) :=
  courses ← get_available_courses e;
  Ok (get_available_methods e, courses).

(** The [engine_ready] flag of [health_check]. *)
Definition engine_ready (e : SearchEngine) : bool :=
  if df e is Some _ then true else false.

End Engine.

(** ** What the engine assumes of the libraries *)

Definition key_le (v : vector) (i j : nat) : Prop := (nth i v 0 <= nth j v 0)%Q.

Class NumPyLaws `{NumPy} : Prop := {
  argsort_permutation v : argsort v ≡ₚ seq 0 (length v);
  argsort_sorted v : StronglySorted (key_le v) (argsort v)
}.

Class SklearnLaws `{Sklearn} : Prop := {
  tfidf_fit_transform_rows params col cv X :
    tfidf_fit_transform params col = Ok (cv, X) → length X = length col;
  cosine_similarity_length X q : length (cosine_similarity X q) = length X;
  svd_fit_transform_rows k X g svd X_emb g' :
    svd_fit_transform k X g = (Ok (svd, X_emb), g') → length X_emb = length X;
  nmf_fit_transform_rows k X g nmf X_emb g' :
    nmf_fit_transform k X g = (Ok (nmf, X_emb), g') → length X_emb = length X
}.


(** ** Invariant and vocabulary of the statements *)

Section Vocabulary.
Context `{NumPy, Sklearn, Transformers}.

(** Every matrix held by the engine has one row per record of the frame. *)
Definition rows_aligned (e : SearchEngine) (n : nat) : Prop :=
  map_Forall (λ _ X, length X = n) (matrices e).

Definition aligned (e : SearchEngine) (d : DataFrame) : Prop :=
  df e = Some d
  ∧ rows_aligned e (length d)
  ∧ from_option (λ E, length E = length d) True (embeddings e).

(** The four ranking entry points under one name. *)
Inductive strategy : Type := Lexical | LinearFactorization | NonNegativeFactorization | Embedding.

Definition rank (st : strategy) (e : SearchEngine) (query field : string)
    (n_components k : Z) (boost : gmap string Q)
    (filters : list (string * string)) (g : RandomState)
    : result (list row) * RandomState :=
  match st with
  | Lexical => (search_tfidf e query k boost filters, g)
  | LinearFactorization => search_svd e query field n_components k filters g
  | NonNegativeFactorization => search_nmf e query field n_components k filters g
  | Embedding => (search_bert e query field k filters, g)
  end.

(** The Score Vector of a strategy: what each entry point computes before
    it filters and ranks. *)
Definition similarity (st : strategy) (e : SearchEngine) (query field : string)
    (n_components : Z) (boost : gmap string Q) (g : RandomState)
    : result (DataFrame * vector) * RandomState :=
  match st with
  | Lexical =>
      (match df e with
       | None => not_fitted
       | Some d =>
           score ← tfidf_scores e query boost (text_fields e)
                     (np_zeros (length d));
           Ok (d, score)
       end, g)
  | LinearFactorization =>
      match df e with
      | None => (not_fitted, g)
      | Some d =>
          match getitem (matrices e) field with
          | Raise x => (Raise x, g)
          | Ok X =>
              match svd_fit_transform n_components X g with
              | (Raise x, g') => (Raise x, g')
              | (Ok (svd, X_emb), g') =>
                  (cv ← getitem (vectorizers e) field;
                   Ok (d, cosine_similarity X_emb
                            (svd_transform svd (tfidf_transform cv query))),
                   g')
              end
          end
      end
  | NonNegativeFactorization =>
      match df e with
      | None => (not_fitted, g)
      | Some d =>
          match getitem (matrices e) field with
          | Raise x => (Raise x, g)
          | Ok X =>
              match nmf_fit_transform n_components X g with
              | (Raise x, g') => (Raise x, g')
              | (Ok (nmf, X_emb), g') =>
                  (cv ← getitem (vectorizers e) field;
                   Ok (d, cosine_similarity X_emb
                            (nmf_transform nmf (tfidf_transform cv query))),
                   g')
              end
          end
      end
  | Embedding =>
      (match embeddings e with
       | None =>
           Raise (ValueError
                    "BERT embeddings non caricati. Usa load_bert_embeddings()")
       | Some E =>
           match df e with
           | None => not_fitted
           | Some d =>
               if bert_available e then
                 query_emb ← bert_encode query;
                 Ok (d, cosine_similarity E query_emb)
               else Raise (AttributeError "tokenizer")
           end
       end, g)
  end.


(** [fit] has run through for every configured text field. *)
Definition fitted (e : SearchEngine) : Prop :=
  Forall (λ f, is_Some (vectorizers e !! f) ∧ is_Some (matrices e !! f))
    (text_fields e).

(** A record survives the filters when it holds every required value. *)
Definition passes (r : record) (filters : list (string * string)) : Prop :=
  Forall (λ fv, r !! fv.1 = Some fv.2) filters.

Definition matching (d : DataFrame) (filters : list (string * string))
    : DataFrame :=
  filter (λ r, passes r filters) d.

(** [x] is the result dictionary of the record at position [i], carrying the
    entry [i] of [score]. *)
Definition ranks (d : DataFrame) (score : vector) (i : nat) (x : row) : Prop :=
  ∃ r s, d !! i = Some r ∧ score !! i = Some s
         ∧ x = to_dict_row (columns d) r s.

(** A result dictionary that belongs to a record of the frame and, when that
    record fails a filter, carries the score zero. *)
Definition masked (d : DataFrame) (filters : list (string * string)) (x : row)
    : Prop :=
  ∃ i r, d !! i = Some r
         ∧ x = to_dict_row (columns d) r (row_score x)
         ∧ (¬ passes r filters → (row_score x == 0)%Q).

(** The lexical Score Vector as the specification words it: each field's
    similarity vector times its boost, summed over the fields. *)
Definition field_similarity (e : SearchEngine) (query f : string) : result vector :=
  cv ← getitem (vectorizers e) f;
  X ← getitem (matrices e) f;
  Ok (cosine_similarity X (tfidf_transform cv query)).


(** The text of a record as the specification words it: the configured
    text fields, in their configured order, separated by a blank. *)
Fixpoint spec_document_text (fields : list string) (doc : record) : string :=
  match fields with
  | [] => ""
  | [f] => default "" (doc !! f)
  | f :: fields' => default "" (doc !! f) +:+ " " +:+ spec_document_text fields' doc
  end.

End Vocabulary.

(** ** Concrete libraries for closed examples *)

#[global] Instance Qle_decision (x y : Q) : Decision (x <= y)%Q :=
  decide (Qnum x * QDen y ≤ Qnum y * QDen x).

#[global] Instance key_le_decision (v : vector) (i j : nat)
    : Decision (key_le v i j) :=
  Qle_decision _ _.

(** A sort that meets [NumPyLaws]: the merge sort of the index list by key.
    Like NumPy's default kind it promises nothing on the order of equal
    keys. *)
Definition numpy_merge_sort : NumPy :=
  {| argsort := λ v, merge_sort (key_le v) (seq 0 (length v)) |}.

(** A small vectorizer: every document is one token, the vocabulary lists
    the distinct documents, a text becomes its indicator vector (the
    L2-normalised TF-IDF row of a one-word document). *)
Definition one_hot (vocabulary : list string) (text : string) : vector :=
  (λ w, if decide (w = text) then 1%Q else 0%Q) <$> vocabulary.

Definition dot (x y : vector) : Q := foldr Qplus 0%Q (zip_with Qmult x y).

(** The cosine, exact whenever both lengths are rational -- indicator rows
    and one-dimensional vectors among them; a zero vector gives 0, as in
    scikit-learn.  Vectors of irrational length, which the examples do not
    use, get 0 as well. *)
Definition exact_sqrt (q : Q) : option Q :=
  let r := Qred q in
  let n := Z.sqrt (Qnum r) in
  let d := Pos.sqrt (Qden r) in
  if decide (n * n = Qnum r ∧ (d * d)%positive = Qden r) then Some (n # d)
  else None.

Definition cosine (x y : vector) : Q :=
  match exact_sqrt (dot x x), exact_sqrt (dot y y) with
  | Some a, Some b =>
      if Qeq_dec (a * b) 0 then 0%Q else Qred (dot x y / (a * b))
  | _, _ => 0%Q
  end.

(** A rank-1 projection on the direction (1, 1, 1, ...) or, when [flip] is
    set, (1, -1, 1, ...), up to scale; a higher rank keeps the leading
    coordinates.  On indicator rows all singular values coincide, so every
    direction spans a leading singular subspace: which one the randomized
    solver returns depends on its draws, here on the parity of the
    generator state. *)
Definition signs (flip : bool) (n : nat) : vector :=
  (λ j, if flip && Nat.odd j then (-1)%Q else 1%Q) <$> seq 0 n.

Definition svd_project (svd : nat * bool) (x : vector) : vector :=
  if decide (svd.1 = 1%nat) then [dot x (signs svd.2 (length x))]
  else take svd.1 x.

Fixpoint cell_texts (col : list cell) : result (list string) :=
  match col with
  | [] => Ok []
  | Str s :: col' => ts ← cell_texts col'; Ok (s :: ts)
  | _ :: _ => Raise (AttributeError "lower")
  end.

Definition resize (k : nat) (x : vector) : vector := take k (x ++ replicate k 0%Q).

Definition toy_sklearn : Sklearn :=
  {| TfidfVectorizer := list string;
     tfidf_fit_transform := λ _ col,
       match cell_texts col with
       | Raise x => Raise x
       | Ok texts =>
           let vocabulary := remove_dups texts in
           if decide (vocabulary = [])
           then Raise (ValueError "empty vocabulary")
           else Ok (vocabulary, one_hot vocabulary <$> texts)
       end;
     tfidf_transform := one_hot;
     cosine_similarity := λ X q, (λ x, cosine x q) <$> X;
     RandomState := nat;
     TruncatedSVD := nat * bool;
     svd_fit_transform := λ k X g,
       if decide (1 ≤ k ∧ Forall (λ x, Z.to_nat k ≤ length x)%nat X)
       then (Ok ((Z.to_nat k, Nat.odd g),
                 svd_project (Z.to_nat k, Nat.odd g) <$> X), S g)
       else (Raise (ValueError "n_components"), g);
     svd_transform := svd_project;
     NMF := nat;
     nmf_fit_transform := λ k X g,
       if decide (1 ≤ k ∧ Forall (Forall (Qle 0)) X)
       then (Ok (Z.to_nat k, resize (Z.to_nat k) <$> X), S g)
       else (Raise (ValueError "n_components or negative data"), g);
     nmf_transform := λ k q, resize k q |}.

#[global] Instance toy_RandomState_eq_dec : EqDecision (@RandomState toy_sklearn) :=
  Nat.eq_dec.

(** A one-dimensional encoder, and a file system on which only the empty
    path cannot be opened. *)
Definition toy_transformers : Transformers :=
  {| bert_encode := λ text, Ok [inject_Z (Z.of_nat (String.length text))] |}.

Definition toy_filesystem : FileSystem :=
  {| pickle_dump := λ path, if decide (path = "") then OpenFailed else Written |}.

(** A two-record corpus fitted with the concrete libraries. *)
Definition record_A : gmap string string :=
  {[ "section" := "setup"; "question" := "install"; "text" := "python";
     "course" := "A" ]}.

Definition record_B : gmap string string :=
  {[ "section" := "setup"; "question" := "run"; "text" := "java";
     "course" := "B" ]}.

Definition corpus_AB : DataFrame := [record_A; record_B].

Definition engine_AB : @SearchEngine toy_sklearn :=
  (fit corpus_AB default_vectorizer_params (init default_text_fields true)).2.

(** The same corpus as it is downloaded, the embeddings of its records, and
    a file system that holds them. *)
Definition courses_AB : list Course :=
  [ {| course := "A"; documents := [delete "course" record_A] |};
    {| course := "B"; documents := [delete "course" record_B] |} ].

Definition embeddings_AB : list (list Q) := [[20%Q]; [14%Q]].


Definition request_unknown : SearchRequest :=
  {| query := "java"; method := "bm25"; n_results := 2; boost := ∅;
     filters := []; field := "text"; n_components := 16 |}.

(** A query made of one no-break space (U+00A0, the bytes C2 A0), and one
    with white space of several kinds around a word. *)
Definition request_nbsp : SearchRequest :=
  {| query := String "194" (String "160" ""); method := "bm25";
     n_results := 2; boost := ∅; filters := []; field := "text";
     n_components := 16 |}.

Definition padded_java : string :=
  String "009" (String "226" (String "128" (String "131"
    ("java" +:+ String "194" (String "160" (String "010" ""))))))%string.


Definition request_nmf (rank : Z) : SearchRequest :=
  {| query := "java"; method := "nmf"; n_results := 2; boost := ∅;
     filters := []; field := "text"; n_components := rank |}.

(** * Properties *)

(** Closed runs are settled by evaluating the decision of the equation. *)
Ltac by_evaluation := refine (bool_decide_unpack _ _); vm_compute; exact I.

(** ** The result monad *)

Lemma bind_Ok {A B : Type} (m : result A) (k : A → result B) (b : B) :
  (m ≫= k) = Ok b ↔ ∃ a, m = Ok a ∧ k a = Ok b.
Proof.
  destruct m as [a|x]; simpl; split.
  - eauto.
  - by intros (a' & [= <-] & ?).
  - done.
  - by intros (? & ? & ?).
Qed.

Ltac inv_bind H :=
  repeat match type of H with
  | (_ ≫= _) = Ok _ =>
      let a := fresh "a" in
      let Ha := fresh "Ha" in
      apply bind_Ok in H as (a & Ha & H)
  end.

(** ** NumPy helpers *)

Lemma np_take_Ok {A : Type} (a : list A) (idx : list nat) (xs : list A) :
  np_take a idx = Ok xs ↔ Forall2 (λ i x, a !! i = Some x) idx xs.
Proof.
  revert xs; induction idx as [|i idx IH]; intros xs; simpl.
  - split; [intros [= <-]; constructor | by inversion 1].
  - destruct (a !! i) as [x|] eqn:Hi.
    + change (mbind ?k ?m) with (m ≫= k). rewrite bind_Ok. split.
      * intros (ys & Hys & [= <-]). constructor; [done | by apply IH].
      * inversion 1 as [|? y ? ys Hy Hys]; subst.
        exists ys. split; [by apply IH | congruence].
    + split; [done | inversion 1; congruence].
Qed.

Lemma np_take_total {A : Type} (a : list A) (idx : list nat) :
  Forall (λ i, i < length a)%nat idx → ∃ xs, np_take a idx = Ok xs.
Proof.
  induction 1 as [|i idx Hi _ [xs IH]]; simpl; [by eexists |].
  destruct (lookup_lt_is_Some_2 a i Hi) as [x ->].
  rewrite IH. by eexists.
Qed.

Lemma np_take_take {A : Type} (a : list A) (idx : list nat) (xs : list A)
    (m : nat) :
  np_take a idx = Ok xs → np_take a (take m idx) = Ok (take m xs).
Proof. rewrite !np_take_Ok. apply Forall2_take. Qed.

Lemma py_slice_to_length {A : Type} (k : Z) (a : list A) :
  0 ≤ k → length (py_slice_to k a) = (Z.to_nat k `min` length a)%nat.
Proof. intros Hk. unfold py_slice_to. rewrite decide_True by done. apply length_take. Qed.

Lemma py_slice_to_prefix {A : Type} (k : Z) (a : list A) :
  py_slice_to k a `prefix_of` a.
Proof. unfold py_slice_to. case_decide; apply prefix_take. Qed.

Lemma py_slice_to_all {A : Type} (k : Z) (a : list A) :
  Z.of_nat (length a) ≤ k → py_slice_to k a = a.
Proof.
  intros Hk. unfold py_slice_to. rewrite decide_True by lia.
  apply take_ge. lia.
Qed.

Lemma np_binop_same_length (f : Q → Q → Q) (a b : vector) :
  length a = length b → np_binop f a b = Ok (zip_with f a b).
Proof. intros Hl. unfold np_binop. by rewrite decide_True. Qed.

Lemma row_score_to_dict_row (cols : gset string) (r : gmap string string) (s : Q) :
  row_score (to_dict_row cols r s) = s.
Proof. unfold row_score, to_dict_row. by rewrite lookup_insert_eq. Qed.

Lemma StronglySorted_Forall2 {A B : Type} (P : relation A) (S : relation B)
    (R : A → B → Prop) (l1 : list A) (l2 : list B) :
  (∀ a b x y, P a b → R a x → R b y → S x y) →
  Forall2 R l1 l2 → StronglySorted P l1 → StronglySorted S l2.
Proof.
  intros HPS HR. induction HR as [|a x l1 l2 Hax HR IH]; intros Hs.
  - constructor.
  - apply StronglySorted_inv in Hs as [Hs Hall]. constructor; [by apply IH |].
    clear IH Hs. induction HR as [|b y l1 l2 Hby HR IH]; [constructor |].
    apply Forall_cons in Hall as [Hab Hall].
    constructor; [by eapply HPS | by apply IH].
Qed.

(** ** Ranking: the steps shared by the four strategies *)

Section Ranking.
Context `{NumPy, Sklearn, Transformers}.
Context `{!NumPyLaws}.

Lemma argsort_length (v : vector) : length (argsort v) = length v.
Proof. rewrite (Permutation_length (argsort_permutation v)). apply length_seq. Qed.

Lemma argsort_in_range (v : vector) : Forall (λ i, i < length v)%nat (argsort v).
Proof.
  apply Forall_forall. intros i Hi.
  rewrite (argsort_permutation v) in Hi. apply elem_of_seq in Hi. lia.
Qed.

Lemma top_idx_prefix (score : vector) (k : Z) :
  top_idx score k `prefix_of` argsort (Qopp <$> score).
Proof. apply py_slice_to_prefix. Qed.

Lemma top_idx_in_range (score : vector) (k : Z) :
  Forall (λ i, i < length score)%nat (top_idx score k).
Proof.
  destruct (top_idx_prefix score k) as [rest Hrest].
  pose proof (argsort_in_range (Qopp <$> score)) as Hall.
  rewrite Hrest, length_fmap in Hall. by apply Forall_app in Hall as [? _].
Qed.

Lemma top_idx_length (score : vector) (k : Z) :
  0 ≤ k → length (top_idx score k) = (Z.to_nat k `min` length score)%nat.
Proof.
  intros Hk. unfold top_idx.
  by rewrite py_slice_to_length, argsort_length, length_fmap.
Qed.

Lemma top_idx_NoDup (score : vector) (k : Z) : NoDup (top_idx score k).
Proof.
  destruct (top_idx_prefix score k) as [rest Hrest].
  assert (NoDup (argsort (Qopp <$> score))) as Hnd.
  { rewrite (argsort_permutation _). apply NoDup_seq. }
  rewrite Hrest in Hnd. by apply NoDup_app in Hnd as [? _].
Qed.

Lemma top_idx_sorted (score : vector) (k : Z) :
  StronglySorted (key_le (Qopp <$> score)) (top_idx score k).
Proof.
  destruct (top_idx_prefix score k) as [rest Hrest].
  pose proof (argsort_sorted (Qopp <$> score)) as Hs.
  rewrite Hrest in Hs. by apply StronglySorted_app_1_l in Hs.
Qed.

Lemma top_results_Ok (d : DataFrame) (score : vector) (k : Z) (res : list row) :
  top_results d score k = Ok res →
  Forall2 (ranks d score) (top_idx score k) res.
Proof.
  unfold top_results, iloc. intros Hres.
  apply bind_Ok in Hres as (rs & Hrs & Hres).
  apply bind_Ok in Hres as (ss & Hss & [= <-]).
  destruct (np_take d _) as [rs'|] eqn:Hd; [|done]. injection Hrs as ->.
  apply np_take_Ok in Hd. apply np_take_Ok in Hss.
  revert ss Hss. induction Hd as [|i r idx rs Hi _ IH]; intros ss Hss.
  - inversion Hss. constructor.
  - inversion Hss as [|? s ? ss' Hs Hss']; subst. simpl.
    constructor; [by exists r, s | by apply IH].
Qed.

Lemma top_results_total (d : DataFrame) (score : vector) (k : Z) :
  length score = length d → ∃ res, top_results d score k = Ok res.
Proof.
  intros Hl. unfold top_results, iloc.
  pose proof (top_idx_in_range score k) as Hr.
  destruct (np_take_total d (top_idx score k)) as [rs ->]; [by rewrite <-Hl |].
  destruct (np_take_total score (top_idx score k)) as [ss ->]; [done |].
  by eexists.
Qed.

Lemma top_results_length (d : DataFrame) (score : vector) (k : Z) (res : list row) :
  top_results d score k = Ok res → 0 ≤ k →
  length res = (Z.to_nat k `min` length score)%nat.
Proof.
  intros Hres Hk. apply top_results_Ok, Forall2_length in Hres.
  by rewrite <-Hres, top_idx_length.
Qed.

Lemma ranks_row_score (d : DataFrame) (score : vector) (i : nat) (x : row) :
  ranks d score i x → score !! i = Some (row_score x).
Proof. intros (r & s & _ & Hs & ->). by rewrite row_score_to_dict_row. Qed.

Lemma top_results_sorted (d : DataFrame) (score : vector) (k : Z) (res : list row) :
  top_results d score k = Ok res →
  StronglySorted (λ x y, (row_score y <= row_score x)%Q) res.
Proof.
  intros Hres. apply top_results_Ok in Hres.
  eapply StronglySorted_Forall2; [| exact Hres | apply top_idx_sorted].
  intros i j x y Hij Hx%ranks_row_score Hy%ranks_row_score.
  unfold key_le in Hij.
  assert (∀ i s, score !! i = Some s → nth i (Qopp <$> score) 0%Q = Qopp s) as Hnth.
  { intros i' s' Hs'. apply nth_lookup_Some with (d := 0%Q).
    by rewrite list_lookup_fmap, Hs'. }
  rewrite (Hnth _ _ Hx), (Hnth _ _ Hy) in Hij.
  by apply Qopp_le_compat in Hij; rewrite !Qopp_involutive in Hij.
Qed.

End Ranking.

(** ** Scoring: boosts and masks *)

Lemma getitem_Ok {V : Type} (m : gmap string V) (key : string) (v : V) :
  getitem m key = Ok v ↔ m !! key = Some v.
Proof. unfold getitem. destruct (m !! key); split; congruence. Qed.

Lemma df_column_Ok (d : DataFrame) (field : string) (col : list cell) :
  df_column d field = Ok col →
  col = (λ r : gmap string string, cell_of (r !! field)) <$> d.
Proof. unfold df_column. case_decide; congruence. Qed.

Lemma cell_eqb_cell_of (o : option string) (value : string) :
  cell_eqb (cell_of o) value = bool_decide (o = Some value).
Proof.
  destruct o as [s|]; simpl; [|done].
  apply bool_decide_ext. split; congruence.
Qed.

#[global] Instance Forall2_Qeq_equiv : Equivalence (Forall2 Qeq).
Proof. apply _. Qed.



Section Scoring.
Context `{NumPy, Sklearn, Transformers}.
Context `{!SklearnLaws}.

Lemma tfidf_scores_cons (e : SearchEngine) (query : string)
    (boost : gmap string Q) (f : string) (fields : list string)
    (acc score : vector) :
  tfidf_scores e query boost (f :: fields) acc = Ok score ↔
  ∃ s acc', field_similarity e query f = Ok s
    ∧ np_binop Qplus acc (Qmult (default 1%Q (boost !! f)) <$> s) = Ok acc'
    ∧ tfidf_scores e query boost fields acc' = Ok score.
Proof.
  simpl. unfold field_similarity.
  destruct (getitem (vectorizers e) f) as [cv|]; simpl;
    [| split; [done | by intros (? & ? & ? & _)]].
  destruct (getitem (matrices e) f) as [X|]; simpl;
    [| split; [done | by intros (? & ? & ? & _)]].
  change (mbind ?k ?m) with (m ≫= k). rewrite bind_Ok. split.
  - intros (acc' & ? & ?). eauto.
  - intros (s & acc' & [= <-] & ? & ?). eauto.
Qed.

Lemma field_similarity_length (e : SearchEngine) (query f : string)
    (n : nat) (s : vector) :
  rows_aligned e n → field_similarity e query f = Ok s → length s = n.
Proof.
  intros Hal Hs. unfold field_similarity in Hs.
  apply bind_Ok in Hs as (cv & _ & Hs).
  apply bind_Ok in Hs as (X & HX%getitem_Ok & [= <-]).
  rewrite cosine_similarity_length. by apply (Hal f).
Qed.

Lemma tfidf_scores_length (e : SearchEngine) (query : string)
    (boost : gmap string Q) (fields : list string) (n : nat)
    (acc score : vector) :
  rows_aligned e n → length acc = n →
  tfidf_scores e query boost fields acc = Ok score → length score = n.
Proof.
  intros Hal. revert acc. induction fields as [|f fields IH]; intros acc Hl.
  - by intros [= <-].
  - intros (s & acc' & Hs & Hacc & Hscore)%tfidf_scores_cons.
    eapply field_similarity_length in Hs; [|done].
    rewrite np_binop_same_length in Hacc by (by rewrite length_fmap, Hs).
    injection Hacc as <-. apply IH in Hscore; [done |].
    rewrite length_zip_with, length_fmap. lia.
Qed.

Lemma apply_filters_length (d : DataFrame) (filters : list (string * string))
    (score score' : vector) :
  length score = length d →
  apply_filters d filters score = Ok score' → length score' = length d.
Proof.
  revert score. induction filters as [|[field value] filters IH]; intros score Hl.
  - by intros [= <-].
  - simpl. intros Hres.
    apply bind_Ok in Hres as (col & ->%df_column_Ok & Hres).
    apply bind_Ok in Hres as (score1 & Hbin & Hres).
    rewrite np_binop_same_length in Hbin by (by rewrite !length_fmap).
    injection Hbin as <-. apply IH in Hres; [done |].
    rewrite length_zip_with, !length_fmap. lia.
Qed.

(** After the filter loop, entry [i] is the old entry times 1 or 0, as the
    record [i] passes the filters or not. *)
Lemma apply_filters_lookup (d : DataFrame) (filters : list (string * string))
    (score score' : vector) (i : nat) (r : gmap string string) (s : Q) :
  length score = length d →
  apply_filters d filters score = Ok score' →
  d !! i = Some r → score !! i = Some s →
  ∃ s', score' !! i = Some s'
        ∧ (s' == s * bool_to_Q (bool_decide (passes r filters)))%Q.
Proof.
  revert score s. induction filters as [|[field value] filters IH];
    intros score s Hl Hres Hr Hs.
  - injection Hres as <-. exists s. split; [done |].
    rewrite bool_decide_eq_true_2 by constructor. simpl. ring.
  - simpl in Hres.
    apply bind_Ok in Hres as (col & ->%df_column_Ok & Hres).
    apply bind_Ok in Hres as (score1 & Hbin & Hres).
    rewrite np_binop_same_length in Hbin by (by rewrite !length_fmap).
    injection Hbin as <-.
    set (m := bool_decide (r !! field = Some value)).
    eapply (IH _ (s * bool_to_Q m)%Q) in Hres as (s' & Hs' & Hs'eq); [| | done |].
    2:{ rewrite length_zip_with, !length_fmap. lia. }
    2:{ rewrite lookup_zip_with, Hs. simpl.
      by rewrite !list_lookup_fmap, Hr; simpl; rewrite cell_eqb_cell_of. }
    exists s'. split; [done |]. rewrite Hs'eq. subst m.
    assert (bool_decide (passes r ((field, value) :: filters))
            = bool_decide (r !! field = Some value)
              && bool_decide (passes r filters)) as ->.
    { unfold passes. rewrite <-bool_decide_and.
      apply bool_decide_ext. by rewrite Forall_cons. }
    destruct (bool_decide (r !! field = Some value)),
      (bool_decide (passes r filters)); simpl; ring.
Qed.

Lemma apply_filters_total (d : DataFrame) (filters : list (string * string))
    (score : vector) :
  length score = length d →
  Forall (λ fv, fv.1 ∈ columns d) filters →
  ∃ score', apply_filters d filters score = Ok score'.
Proof.
  intros Hl Hcols. revert score Hl.
  induction Hcols as [|[field value] filters Hf _ IH]; intros score Hl; simpl.
  - by eexists.
  - unfold df_column. rewrite decide_True by done. simpl.
    rewrite np_binop_same_length by (by rewrite !length_fmap). simpl.
    apply IH. rewrite length_zip_with, !length_fmap. lia.
Qed.

Lemma tfidf_scores_total (e : SearchEngine) (query : string)
    (boost : gmap string Q) (fields : list string) (n : nat) (acc : vector) :
  rows_aligned e n → length acc = n →
  Forall (λ f, is_Some (vectorizers e !! f) ∧ is_Some (matrices e !! f)) fields →
  ∃ score, tfidf_scores e query boost fields acc = Ok score.
Proof.
  intros Hal Hl Hfit. revert acc Hl.
  induction Hfit as [|f fields [[cv Hcv] [X HX]] _ IH]; intros acc Hl; simpl.
  - by eexists.
  - unfold getitem. rewrite Hcv, HX. simpl.
    rewrite np_binop_same_length; simpl.
    + apply IH. rewrite length_zip_with, length_fmap, cosine_similarity_length.
      rewrite (Hal f X HX). lia.
    + rewrite length_fmap, cosine_similarity_length. by rewrite (Hal f X HX).
Qed.

End Scoring.

(** ** The four strategies, read backwards from a returned result *)

Section Strategies.
Context `{NumPy, Sklearn, Transformers}.

Lemma search_tfidf_inv (e : SearchEngine) (query : string) (k : Z)
    (boost : gmap string Q) (filters : list (string * string)) (res : list row) :
  search_tfidf e query k boost filters = Ok res →
  ∃ d score0 score,
    df e = Some d
    ∧ tfidf_scores e query boost (text_fields e) (np_zeros (length d)) = Ok score0
    ∧ apply_filters d filters score0 = Ok score
    ∧ top_results d score k = Ok res.
Proof.
  unfold search_tfidf. destruct (df e) as [d|]; [|done]. intros Hres.
  apply bind_Ok in Hres as (score0 & Hscore0 & Hres).
  apply bind_Ok in Hres as (score & Hscore & Hres).
  by exists d, score0, score.
Qed.

Lemma search_svd_inv (e : SearchEngine) (query field : string)
    (n_components k : Z) (filters : list (string * string))
    (g g' : RandomState) (res : list row) :
  search_svd e query field n_components k filters g = (Ok res, g') →
  ∃ d X svd X_emb cv score,
    df e = Some d
    ∧ matrices e !! field = Some X
    ∧ svd_fit_transform n_components X g = (Ok (svd, X_emb), g')
    ∧ vectorizers e !! field = Some cv
    ∧ apply_filters d filters
        (cosine_similarity X_emb (svd_transform svd (tfidf_transform cv query)))
      = Ok score
    ∧ top_results d score k = Ok res.
Proof.
  unfold search_svd. destruct (df e) as [d|]; [|done].
  destruct (getitem (matrices e) field) as [X|] eqn:HX; [|done].
  destruct (svd_fit_transform n_components X g) as [[[svd X_emb]|] g1] eqn:Hfit;
    [|done].
  intros [= Hres <-].
  apply bind_Ok in Hres as (cv & Hcv%getitem_Ok & Hres).
  apply bind_Ok in Hres as (score & Hscore & Hres).
  apply getitem_Ok in HX. by exists d, X, svd, X_emb, cv, score.
Qed.

Lemma search_nmf_inv (e : SearchEngine) (query field : string)
    (n_components k : Z) (filters : list (string * string))
    (g g' : RandomState) (res : list row) :
  search_nmf e query field n_components k filters g = (Ok res, g') →
  ∃ d X nmf X_emb cv,
    df e = Some d
    ∧ matrices e !! field = Some X
    ∧ nmf_fit_transform n_components X g = (Ok (nmf, X_emb), g')
    ∧ vectorizers e !! field = Some cv
    ∧ top_results d
        (cosine_similarity X_emb (nmf_transform nmf (tfidf_transform cv query))) k
      = Ok res.
Proof.
  unfold search_nmf. destruct (df e) as [d|]; [|done].
  destruct (getitem (matrices e) field) as [X|] eqn:HX; [|done].
  destruct (nmf_fit_transform n_components X g) as [[[nmf X_emb]|] g1] eqn:Hfit;
    [|done].
  intros [= Hres <-].
  apply bind_Ok in Hres as (cv & Hcv%getitem_Ok & Hres).
  apply getitem_Ok in HX. by exists d, X, nmf, X_emb, cv.
Qed.

Lemma search_bert_inv (e : SearchEngine) (query field : string) (k : Z)
    (filters : list (string * string)) (res : list row) :
  search_bert e query field k filters = Ok res →
  ∃ d E query_emb score,
    df e = Some d
    ∧ embeddings e = Some E
    ∧ bert_encode query = Ok query_emb
    ∧ apply_filters d filters (cosine_similarity E query_emb) = Ok score
    ∧ top_results d score k = Ok res.
Proof.
  unfold search_bert. destruct (embeddings e) as [E|]; [|done].
  destruct (df e) as [d|]; [|done]. destruct (bert_available e); [|done].
  intros Hres. apply bind_Ok in Hres as (query_emb & Hq & Hres).
  apply bind_Ok in Hres as (score & Hscore & Hres).
  by exists d, E, query_emb, score.
Qed.

Context `{!NumPyLaws, !SklearnLaws}.

(** The rows kept after masking and ranking. *)
Lemma masked_top_results (d : DataFrame) (filters : list (string * string))
    (score0 score : vector) (k : Z) (res : list row) :
  length score0 = length d →
  apply_filters d filters score0 = Ok score →
  top_results d score k = Ok res →
  Forall (masked d filters) res.
Proof.
  intros Hl Hscore Hres. apply top_results_Ok in Hres.
  apply Forall_forall. intros x Hx.
  apply list_elem_of_lookup in Hx as [p Hp].
  destruct (Forall2_lookup_r _ _ _ _ _ Hres Hp) as (i & _ & r & s & Hr & Hs & ->).
  exists i, r. rewrite row_score_to_dict_row. split_and!; [done.. |].
  intros Hfail.
  destruct (lookup_lt_is_Some_2 score0 i) as [s0 Hs0].
  { rewrite Hl. by eapply lookup_lt_Some. }
  destruct (apply_filters_lookup _ _ _ _ _ _ _ Hl Hscore Hr Hs0) as (s' & Hs' & Heq).
  rewrite Hs in Hs'. injection Hs' as <-.
  rewrite Heq, (bool_decide_eq_false_2 _ Hfail). simpl. ring.
Qed.

End Strategies.

(** ** [fit] establishes the invariant *)

Section Fit.
Context `{NumPy, Sklearn, Transformers}.
Context `{!SklearnLaws}.

Lemma fit_fields_Ok (d : DataFrame) (params : gmap string cell)
    (fields : list string) (e e' : SearchEngine) :
  fit_fields d params fields e = (Ok (), e') →
  rows_aligned e (length d) →
  df e' = df e ∧ embeddings e' = embeddings e
  ∧ text_fields e' = text_fields e
  ∧ rows_aligned e' (length d)
  ∧ (∀ f, (is_Some (vectorizers e !! f) ∧ is_Some (matrices e !! f)) ∨ f ∈ fields →
          is_Some (vectorizers e' !! f) ∧ is_Some (matrices e' !! f)).
Proof.
  revert e. induction fields as [|f fields IH]; intros e; simpl.
  - intros [= <-] Hal. split_and!; [done.. |].
    intros f [?|?%elem_of_nil]; done.
  - destruct (df_column d f) as [col|] eqn:Hcol; [|done].
    destruct (tfidf_fit_transform params col) as [[cv X]|] eqn:Hfit; [|done].
    intros Hres Hal. apply IH in Hres as (Hdf & Hemb & Htf & Hal' & Hpres).
    + split_and!; [done.. |]. intros f' Hf'. apply Hpres.
      destruct Hf' as [[Hv Hm]|[->|?]%elem_of_cons]; [left | left | by right]; simpl.
      * destruct (decide (f = f')) as [->|Hne];
          [by rewrite !lookup_insert_eq | by rewrite !lookup_insert_ne].
      * by rewrite !lookup_insert_eq.
    + unfold rows_aligned; simpl. apply map_Forall_insert_2; [|done].
      apply tfidf_fit_transform_rows in Hfit. apply df_column_Ok in Hcol.
      by rewrite Hfit, Hcol, length_fmap.
Qed.

Lemma fit_aligned (records : DataFrame) (params : gmap string cell)
    (text_fields : list string) (bert_loaded : bool) (e' : SearchEngine) :
  fit records params (init text_fields bert_loaded) = (Ok (), e') →
  aligned e' records ∧ fitted e'.
Proof.
  unfold fit. intros Hfit. apply fit_fields_Ok in Hfit as (Hdf & Hemb & Htf & Hal & Hpres).
  - split.
    + split_and!; [by rewrite Hdf | done | by rewrite Hemb].
    + unfold fitted. rewrite Htf. apply Forall_forall. intros f Hf.
      apply Hpres. by right.
  - unfold rows_aligned; simpl. apply map_Forall_empty.
Qed.

End Fit.

(** ** The concrete libraries meet the laws *)

#[global] Instance key_le_transitive (v : vector) : Transitive (key_le v).
Proof. intros i j k. unfold key_le. apply Qle_trans. Qed.

#[global] Instance key_le_total (v : vector) : Total (key_le v).
Proof.
  intros i j. unfold key_le.
  destruct (Qlt_le_dec (nth i v 0%Q) (nth j v 0%Q)); [left | by right].
  by apply Qlt_le_weak.
Qed.

Lemma numpy_merge_sort_laws : @NumPyLaws numpy_merge_sort.
Proof.
  split; intros v; simpl.
  - by rewrite merge_sort_Permutation.
  - apply (StronglySorted_merge_sort _).
Qed.

Lemma cell_texts_length (col : list cell) (texts : list string) :
  cell_texts col = Ok texts → length texts = length col.
Proof.
  revert texts. induction col as [|[s| |] col IH]; intros texts; simpl; try done.
  - by intros [= <-].
  - intros (ts & Hts & [= <-])%bind_Ok. simpl. f_equal. by apply IH.
Qed.

Lemma toy_sklearn_laws : @SklearnLaws toy_sklearn.
Proof.
  split; simpl.
  - intros _ col cv X. destruct (cell_texts col) as [texts|] eqn:Htexts; [|done].
    case_decide; [done |]. intros [= <- <-].
    rewrite length_fmap. by apply cell_texts_length.
  - intros X q. apply length_fmap.
  - intros k X g svd X_emb g'. case_decide; [|done].
    intros [= <- <- <-]. apply length_fmap.
  - intros k X g nmf X_emb g'. case_decide; [|done].
    intros [= <- <- <-]. apply length_fmap.
Qed.







Lemma pair_eta_Ok {A B : Type} (p : result A * B) (a : A) :
  p.1 = Ok a → p = (Ok a, p.2).
Proof. destruct p as [r b]; simpl. by intros ->. Qed.

Lemma engine_AB_aligned : aligned engine_AB corpus_AB ∧ fitted engine_AB.
Proof.
  apply (@fit_aligned toy_sklearn toy_sklearn_laws corpus_AB
           default_vectorizer_params default_text_fields true).
  apply pair_eta_Ok. vm_compute. reflexivity.
Qed.

(** ** Results of the ranking entry points *)

Section Results.
Context `{NumPy, Sklearn, Transformers}.
Context `{!NumPyLaws, !SklearnLaws}.

(** Whatever the strategy, a returned list is [top_results] of some score
    vector; on an aligned engine that vector has one entry per record, and
    for every strategy but the non-negative factorization it is the outcome
    of the filter loop. *)
Lemma rank_inv (st : strategy) (e : SearchEngine) (query field : string)
    (n_components k : Z) (boost : gmap string Q)
    (filters : list (string * string)) (g g' : RandomState) (res : list row) :
  rank st e query field n_components k boost filters g = (Ok res, g') →
  ∃ d score,
    df e = Some d
    ∧ top_results d score k = Ok res
    ∧ (rows_aligned e (length d)
       ∧ from_option (λ E, length E = length d) True (embeddings e) →
       length score = length d
       ∧ (st ≠ NonNegativeFactorization →
          ∃ score0, length score0 = length d
                    ∧ apply_filters d filters score0 = Ok score)).
Proof.
  destruct st; simpl.
  - intros [= Hres <-].
    apply search_tfidf_inv in Hres as (d & score0 & score & Hd & Hs0 & Hf & Hres).
    exists d, score. split_and!; [done.. |]. intros [Hal _].
    assert (length score0 = length d) as Hl0.
    { eapply tfidf_scores_length; [done | | done]. apply length_replicate. }
    split; [by eapply apply_filters_length | eauto].
  - intros Hres.
    apply search_svd_inv in Hres
      as (d & X & svd & X_emb & cv & score & Hd & HX & Hfit & _ & Hf & Hres).
    exists d, score. split_and!; [done.. |]. intros [Hal _].
    assert (length (cosine_similarity X_emb
                      (svd_transform svd (tfidf_transform cv query))) = length d)
      as Hl0.
    { rewrite cosine_similarity_length, (svd_fit_transform_rows _ _ _ _ _ _ Hfit).
      by apply (Hal field). }
    split; [by eapply apply_filters_length | eauto].
  - intros Hres.
    apply search_nmf_inv in Hres as (d & X & nmf & X_emb & cv & Hd & HX & Hfit & _ & Hres).
    eexists d, _. split_and!; [done.. |]. intros [Hal _]. split; [|done].
    rewrite cosine_similarity_length, (nmf_fit_transform_rows _ _ _ _ _ _ Hfit).
    by apply (Hal field).
  - intros [= Hres <-].
    apply search_bert_inv in Hres
      as (d & E & query_emb & score & Hd & HE & _ & Hf & Hres).
    exists d, score. split_and!; [done.. |]. intros [_ Hemb].
    rewrite HE in Hemb; simpl in Hemb.
    assert (length (cosine_similarity E query_emb) = length d) as Hl0.
    { by rewrite cosine_similarity_length. }
    split; [by eapply apply_filters_length | eauto].
Qed.

(** C1 (as amended).  For the lexical, linear-factorization and embedding
    strategies, every returned dictionary belongs to a record of the corpus,
    and when that record fails a filter entry its score is zero: the filter
    masks the score, it does not remove the record. *)
Theorem filtered_records_score_zero (st : strategy) (e : SearchEngine)
    (d : DataFrame) (query field : string) (n_components k : Z)
    (boost : gmap string Q) (filters : list (string * string))
    (g g' : RandomState) (res : list row) :
  st ≠ NonNegativeFactorization →
  aligned e d →
  rank st e query field n_components k boost filters g = (Ok res, g') →
  Forall (masked d filters) res.
Proof.
  intros Hst (Hd & Hal & Hemb) Hres.
  apply rank_inv in Hres as (d' & score & Hd' & Hres & Hinv).
  assert (d' = d) as -> by congruence.
  destruct (Hinv (conj Hal Hemb)) as (_ & Hmask).
  destruct (Hmask Hst) as (score0 & Hl0 & Hf).
  by eapply masked_top_results.
Qed.

(** C2 (as amended).  On a fitted engine, for every strategy and every filter
    mapping, a returned list has [min(k, |corpus|)] entries when [k >= 0]:
    the filters do not shorten it. *)
Theorem result_length (st : strategy) (e : SearchEngine)
    (d : DataFrame) (query field : string) (n_components k : Z)
    (boost : gmap string Q) (filters : list (string * string))
    (g g' : RandomState) (res : list row) :
  aligned e d → 0 ≤ k →
  rank st e query field n_components k boost filters g = (Ok res, g') →
  length res = (Z.to_nat k `min` length d)%nat.
Proof.
  intros (Hd & Hal & Hemb) Hk Hres.
  apply rank_inv in Hres as (d' & score & Hd' & Hres & Hinv).
  assert (d' = d) as -> by congruence.
  destruct (Hinv (conj Hal Hemb)) as (Hl & _).
  by rewrite (top_results_length _ _ _ _ Hres Hk), Hl.
Qed.

(** X24.  For every strategy, a returned list is sorted by non-increasing
    score and, when [k >= 0], has at most [k] entries. *)
Theorem result_sorted_truncated (st : strategy) (e : SearchEngine)
    (query field : string) (n_components k : Z)
    (boost : gmap string Q) (filters : list (string * string))
    (g g' : RandomState) (res : list row) :
  rank st e query field n_components k boost filters g = (Ok res, g') →
  StronglySorted (λ x y, (row_score y <= row_score x)%Q) res
  ∧ (0 ≤ k → (length res ≤ Z.to_nat k)%nat).
Proof.
  intros Hres.
  apply rank_inv in Hres as (d & score & _ & Hres & _).
  split; [by eapply top_results_sorted |].
  intros Hk. rewrite (top_results_length _ _ _ _ Hres Hk). lia.
Qed.

End Results.

(** ** Closed instances on the two-record corpus *)

Lemma record_A_fails_course_B : ¬ passes record_A [("course", "B")].
Proof. intros [Hc _]%Forall_cons_1. vm_compute in Hc. discriminate. Qed.

Lemma filtered_records_score_zero_witness :
  Forall (masked corpus_AB [("course", "B")])
    [to_dict_row (columns corpus_AB) record_B 1;
     to_dict_row (columns corpus_AB) record_A 0].
Proof.
  apply (@filtered_records_score_zero numpy_merge_sort toy_sklearn
           toy_transformers toy_sklearn_laws Lexical engine_AB corpus_AB
           "java" "text" 16 2 ∅ [("course", "B")] 0%nat 0%nat).
  - discriminate.
  - split_and!; [reflexivity | | exact I].
    unfold rows_aligned. by_evaluation.
  - by_evaluation.
Defined.

(** C1, refuted as stated.  With the filter [course = B] and [k = 2] the
    lexical strategy returns both records of the corpus: the record of course
    A, which fails the filter, is in the result (with score zero). *)
Lemma filtered_record_returned :
  ¬ passes record_A [("course", "B")]
  ∧ @search_tfidf numpy_merge_sort toy_sklearn engine_AB "java" 2 ∅
      [("course", "B")]
    = Ok [to_dict_row (columns corpus_AB) record_B 1;
          to_dict_row (columns corpus_AB) record_A 0].
Proof. split; [apply record_A_fails_course_B | by_evaluation]. Qed.

Lemma result_length_witness :
  length [to_dict_row (columns corpus_AB) record_B 1;
          to_dict_row (columns corpus_AB) record_A 0]
  = (Z.to_nat 5 `min` length corpus_AB)%nat.
Proof.
  apply (@result_length numpy_merge_sort toy_sklearn toy_transformers
           numpy_merge_sort_laws toy_sklearn_laws LinearFactorization
           engine_AB corpus_AB "java" "text" 2 5 ∅ [("course", "B")]
           0%nat 1%nat).
  - split_and!; [reflexivity | | exact I].
    unfold rows_aligned. by_evaluation.
  - lia.
  - by_evaluation.
Defined.

(** C2, refuted as stated.  One record matches the filter [course = B], yet
    with [k = 2] the result has two entries, not [min(2, 1)]. *)
Lemma result_longer_than_matching :
  @search_tfidf numpy_merge_sort toy_sklearn engine_AB "java" 2 ∅
    [("course", "B")]
  = Ok [to_dict_row (columns corpus_AB) record_B 1;
        to_dict_row (columns corpus_AB) record_A 0]
  ∧ matching corpus_AB [("course", "B")] = [record_B]
  ∧ length [to_dict_row (columns corpus_AB) record_B 1;
            to_dict_row (columns corpus_AB) record_A 0]
    ≠ (Z.to_nat 2 `min` length (matching corpus_AB [("course", "B")]))%nat.
Proof.
  assert (matching corpus_AB [("course", "B")] = [record_B]) as Hm by by_evaluation.
  split_and!; [by_evaluation | done |]. rewrite Hm. simpl. lia.
Qed.

Lemma result_sorted_truncated_witness :
  StronglySorted (λ x y, (row_score y <= row_score x)%Q)
    [to_dict_row (columns corpus_AB) record_B 1]
  ∧ (0 ≤ 1 → (length [to_dict_row (columns corpus_AB) record_B 1] ≤ Z.to_nat 1)%nat).
Proof.
  apply (@result_sorted_truncated numpy_merge_sort toy_sklearn toy_transformers
           numpy_merge_sort_laws toy_sklearn_laws NonNegativeFactorization
           engine_AB "java" "text" 3 1 ∅ [] 0%nat 1%nat).
  by_evaluation.
Defined.

(** ** The requested result count *)

Section ResultCount.
Context `{NumPy, Sklearn, Transformers}.



End ResultCount.



(** ** The text behind an embedding *)

Section EmbeddingStore.
Context `{NumPy, Sklearn, Transformers, FileSystem}.

(** The matrix has one row per text, each the encoding of its text. *)
Lemma encode_documents_Ok (texts : list string) (E : list (list Q)) :
  encode_documents texts = Ok E ↔ Forall2 (λ t v, bert_encode t = Ok v) texts E.
Proof.
  revert E. induction texts as [|t texts IH]; intros E; simpl.
  - split; [intros [= <-]; constructor | by inversion 1].
  - change (mbind ?k ?m) with (m ≫= k). rewrite bind_Ok. split.
    + intros (v & Hv & HE). apply bind_Ok in HE as (vs & Hvs & [= <-]).
      constructor; [done | by apply IH].
    + inversion 1 as [|? v ? vs Hv Hvs]; subst. exists v. split; [done |].
      apply bind_Ok. exists vs. split; [by apply IH | done].
Qed.

Lemma encode_documents_length (texts : list string) (E : list (list Q)) :
  encode_documents texts = Ok E → length E = length texts.
Proof. intros HE%encode_documents_Ok. symmetry. by eapply Forall2_length. Qed.

(** C5 (as amended).  Embedding-store creation encodes, for every record,
    the values of 'text', 'question' and 'section' -- in this fixed order,
    whatever the configured text fields -- joined by single blanks: the
    matrix it builds has, record by record, the encoding of that string as
    its row.  If the encoder raises on one of these texts the call answers
    [False] and changes nothing; otherwise the matrix is stored in the
    engine and then written to the path, the answer being [True] exactly
    when the write succeeds. *)
Theorem create_bert_embeddings_text (save_path : string) (e : SearchEngine)
    (fs : gmap string (list (list Q))) (d : DataFrame) :
  bert_available e = true → df e = Some d →
  let text (doc : gmap string string) :=
    doc_get (columns d) doc "text" +:+ " " +:+ doc_get (columns d) doc "question"
      +:+ " " +:+ doc_get (columns d) doc "section" in
  create_bert_embeddings save_path e fs
  = match encode_documents (text <$> d) with
    | Raise _ => (false, e, fs)
    | Ok E =>
        match pickle_dump save_path with
        | Written => (true, set_embeddings E e, <[save_path := E]> fs)
        | OpenFailed => (false, set_embeddings E e, fs)
        | DumpFailed => (false, set_embeddings E e, delete save_path fs)
        end
    end
  ∧ ∀ E, encode_documents (text <$> d) = Ok E
         ↔ Forall2 (λ doc v, bert_encode (text doc) = Ok v) d E.
Proof.
  intros Hb Hd text. split.
  - unfold create_bert_embeddings. by rewrite Hb, Hd.
  - intros E. by rewrite encode_documents_Ok, Forall2_fmap_l.
Qed.

End EmbeddingStore.

Lemma create_bert_embeddings_text_witness :
  @create_bert_embeddings toy_sklearn toy_transformers toy_filesystem
    "embeddings.bin" engine_AB ∅
  = (true, set_embeddings embeddings_AB engine_AB,
     <["embeddings.bin" := embeddings_AB]> ∅).
Proof.
  destruct (@create_bert_embeddings_text toy_sklearn toy_transformers
              toy_filesystem "embeddings.bin" engine_AB ∅ corpus_AB
              eq_refl eq_refl) as [Hrun _].
  rewrite Hrun. reflexivity.
Defined.

(** A run on a path that cannot be opened: the answer is [False], the files
    are as before, and the engine holds the new embeddings all the same. *)
Example create_bert_embeddings_unwritable :
  @create_bert_embeddings toy_sklearn toy_transformers toy_filesystem
    "" engine_AB ∅
  = (false, set_embeddings embeddings_AB engine_AB, ∅).
Proof. reflexivity. Qed.

(** C5, refuted as stated.  For a record with section 'setup', question
    'install' and text 'python' the encoded text is 'python install setup';
    the configured order section, question, text would give
    'setup install python'. *)
Lemma document_text_not_in_configured_order :
  document_text (columns corpus_AB) record_A = "python install setup"
  ∧ spec_document_text default_text_fields record_A = "setup install python"
  ∧ document_text (columns corpus_AB) record_A
    ≠ spec_document_text default_text_fields record_A.
Proof. split_and!; [by vm_compute.. | vm_compute; discriminate]. Qed.

(** ** What a ranking depends on *)

Section Purity.
Context `{NumPy, Sklearn, Transformers}.



End Purity.



(** ** The lexical Score Vector *)


Section LexicalScore.
Context `{NumPy, Sklearn, Transformers}.
Context `{!SklearnLaws}.





End LexicalScore.

(** The sign of the Score Vector *)

Section ScoreSign.
Context `{NumPy, Sklearn, Transformers}.
Context `{!SklearnLaws, !SklearnSignLaws}.



End ScoreSign.


(** The two Score Vectors of the instance above. *)
Example score_vector_nonnegative_run :
  (@similarity toy_sklearn toy_transformers Lexical engine_AB "java" "text" 1
     {["text" := 2%Q]} 0%nat).1
  = Ok (corpus_AB, [0%Q; 2%Q])
  ∧ (@similarity toy_sklearn toy_transformers NonNegativeFactorization
       engine_AB "java" "text" 1 {["text" := 2%Q]} 0%nat).1
    = Ok (corpus_AB, [0%Q; 0%Q]).
Proof. split; by_evaluation. Qed.



(** A run of the two loops of C9 on the two-record corpus: every record has
    the section 'setup', so the query 'setup' scores 1 on both; with the boost
    of 'section' at 0 nothing is left. *)
Example zero_boost_run :
  @tfidf_scores toy_sklearn engine_AB "setup" {["question" := 2%Q]}
    default_text_fields (np_zeros 2) = Ok [1%Q; 1%Q]
  ∧ @tfidf_scores toy_sklearn engine_AB "setup"
      (<["section" := 0%Q]> {["question" := 2%Q]})
      default_text_fields (np_zeros 2) = Ok [0%Q; 0%Q]
  ∧ @tfidf_scores toy_sklearn engine_AB "setup" {["question" := 2%Q]}
      ["question"; "text"] (np_zeros 2) = Ok [0%Q; 0%Q].
Proof. split_and!; vm_compute; reflexivity. Qed.

(** ** The requested rank *)

Section RankCheck.
Context `{NumPy, Sklearn, Transformers}.


End RankCheck.



(** ** The course values *)

Lemma unique_from (seen col : list cell) :
  NoDup seen →
  let out :=
    foldl (λ (seen : list cell) c,
             if decide (c ∈ seen) then seen else (seen ++ [c])%list) seen col in
  NoDup out ∧ ∀ c, c ∈ out ↔ c ∈ seen ∨ c ∈ col.
Proof.
  revert seen. induction col as [|x col IH]; intros seen Hnd; simpl.
  - split; [done |]. intros c. rewrite elem_of_nil. tauto.
  - destruct (decide (x ∈ seen)) as [Hx|Hx].
    + destruct (IH seen Hnd) as [Hnd' Hin]. split; [done |].
      intros c. rewrite Hin, elem_of_cons.
      split; [tauto |]. intros [?|[->|?]]; tauto.
    + destruct (IH (seen ++ [x])%list) as [Hnd' Hin].
      { apply NoDup_app. split_and!; [done | | apply NoDup_singleton].
        intros y Hy ->%list_elem_of_singleton. done. }
      split; [done |]. intros c.
      rewrite Hin, elem_of_app, list_elem_of_singleton, elem_of_cons. tauto.
Qed.

Lemma unique_NoDup `{Sklearn} (col : list cell) : NoDup (unique col).
Proof. apply (unique_from [] col). constructor. Qed.

Lemma elem_of_unique `{Sklearn} (col : list cell) (c : cell) :
  c ∈ unique col ↔ c ∈ col.
Proof.
  destruct (unique_from [] col (NoDup_nil_2)) as [_ Hin].
  unfold unique. rewrite Hin, elem_of_nil. tauto.
Qed.

Section Courses.
Context `{NumPy, Sklearn, Transformers}.

(** [fit] stores the frame first: it is there whether the loop over the text
    fields runs through or raises. *)
Lemma fit_fields_df (d : DataFrame) (params : gmap string cell)
    (fields : list string) (e : SearchEngine) :
  df (fit_fields d params fields e).2 = df e.
Proof.
  revert e. induction fields as [|f fields IH]; intros e; simpl; [done |].
  destruct (df_column d f) as [col|]; [|done].
  destruct (tfidf_fit_transform params col) as [[cv X]|]; [|done].
  by rewrite IH.
Qed.

Lemma fit_df (records : DataFrame) (params : gmap string cell)
    (e : SearchEngine) :
  df (fit records params e).2 = Some records.
Proof. unfold fit. by rewrite fit_fields_df. Qed.

(** C10.  On an engine without a frame [get_available_courses] returns the
    empty list; after [fit] on records that carry the field 'course' it
    returns the distinct cells of that column. *)
Theorem available_courses (e0 e : SearchEngine) (records : DataFrame)
    (params : gmap string cell) :
  df e0 = None → "course" ∈ columns records →
  get_available_courses e0 = Ok []
  ∧ ∃ courses,
      get_available_courses (fit records params e).2 = Ok courses
      ∧ NoDup courses
      ∧ ∀ c, c ∈ courses ↔ ∃ r : gmap string string,
                               r ∈ records ∧ c = cell_of (r !! "course").
Proof.
  intros Hnone Hcol. split.
  - unfold get_available_courses. by rewrite Hnone.
  - unfold get_available_courses. rewrite fit_df.
    unfold df_column. rewrite decide_True by done. simpl.
    eexists. split_and!; [done | apply unique_NoDup |].
    intros c. rewrite elem_of_unique, list_elem_of_fmap.
    split; [intros (r & -> & Hr) | intros (r & Hr & ->)]; eauto.
Qed.

End Courses.

Lemma available_courses_witness :
  @get_available_courses toy_sklearn (init default_text_fields true) = Ok []
  ∧ ∃ courses,
      @get_available_courses toy_sklearn
        (fit corpus_AB default_vectorizer_params
           (init default_text_fields true)).2 = Ok courses
      ∧ NoDup courses
      ∧ ∀ c, c ∈ courses ↔ ∃ r : gmap string string,
                               r ∈ corpus_AB ∧ c = cell_of (r !! "course").
Proof.
  apply (@available_courses toy_sklearn (init default_text_fields true)
           (init default_text_fields true) corpus_AB
           default_vectorizer_params).
  - reflexivity.
  - by_evaluation.
Defined.

Example available_courses_run :
  @get_available_courses toy_sklearn engine_AB = Ok [Str "A"; Str "B"].
Proof. vm_compute. reflexivity. Qed.

(** * Further properties of the engine *)

(** ** What the top of the ranking holds *)

Section TopK.
Context `{NumPy, Sklearn, Transformers}.
Context `{!NumPyLaws}.

Lemma nth_fmap_Qopp (score : vector) (i : nat) (s : Q) :
  score !! i = Some s → nth i (Qopp <$> score) 0%Q = Qopp s.
Proof.
  intros Hs. apply nth_lookup_Some with (d := 0%Q).
  by rewrite list_lookup_fmap, Hs.
Qed.

(** X1.  No record left out of the result scores higher than a record in it. *)
Theorem top_results_dominate (d : DataFrame) (score : vector) (k : Z)
    (res : list row) (x : row) (j : nat) (s : Q) :
  top_results d score k = Ok res →
  x ∈ res → score !! j = Some s → j ∉ top_idx score k →
  (s <= row_score x)%Q.
Proof.
  intros Hres Hx Hj Hout. apply top_results_Ok in Hres.
  apply list_elem_of_lookup in Hx as [p Hp].
  destruct (Forall2_lookup_r _ _ _ _ _ Hres Hp) as (i & Hi & Hrk).
  apply ranks_row_score in Hrk.
  destruct (top_idx_prefix score k) as [rest Hrest].
  pose proof (argsort_sorted (Qopp <$> score)) as Hs.
  rewrite Hrest in Hs.
  assert (j ∈ rest) as Hjr.
  { assert (j ∈ argsort (Qopp <$> score)) as Hin.
    { rewrite (argsort_permutation _), length_fmap. apply elem_of_seq.
      apply lookup_lt_Some in Hj. lia. }
    rewrite Hrest in Hin. apply elem_of_app in Hin as [?|?]; done. }
  pose proof (StronglySorted_app_1_elem_of _ _ _ i j Hs
                ltac:(by eapply list_elem_of_lookup_2) Hjr) as Hle.
  unfold key_le in Hle.
  rewrite (nth_fmap_Qopp _ _ _ Hrk), (nth_fmap_Qopp _ _ _ Hj) in Hle.
  by apply Qopp_le_compat in Hle; rewrite !Qopp_involutive in Hle.
Qed.

(** X2.  With [k] at least the corpus size the result lists every record once,
    each with its entry of the score vector. *)
Theorem top_results_all (d : DataFrame) (score : vector) (k : Z)
    (res : list row) :
  top_results d score k = Ok res →
  length score = length d → Z.of_nat (length d) ≤ k →
  res ≡ₚ zip_with (to_dict_row (columns d)) d score.
Proof.
  intros Hres Hl Hk. apply top_results_Ok in Hres.
  unfold top_idx in Hres. rewrite py_slice_to_all in Hres
    by (rewrite argsort_length, length_fmap; lia).
  assert (∀ idx, Forall2 (ranks d score) idx res →
            res = (λ i, to_dict_row (columns d) (d !!! i) (nth i score 0%Q)) <$> idx)
    as Hmap.
  { clear. intros idx Hf. induction Hf as [|i x idx res (r & s & Hr & Hs & ->) _ IH];
      [done |]. simpl. f_equal; [|done].
    f_equal; [by rewrite (list_lookup_total_correct _ _ _ Hr)
             | symmetry; by apply nth_lookup_Some]. }
  rewrite (Hmap _ Hres), (argsort_permutation _), length_fmap. clear Hres Hmap Hk.
  assert (∀ (d0 : DataFrame) (sc : vector), length sc = length d0 →
            (λ i, to_dict_row (columns d) (d0 !!! i) (nth i sc 0%Q))
              <$> seq 0 (length sc)
            = zip_with (to_dict_row (columns d)) d0 sc) as Heq.
  { clear. intros d0. induction d0 as [|r d0 IH]; intros [|s sc] Hl; simplify_eq/=;
      [done |]. f_equal. rewrite <-(IH sc) by done.
    rewrite <-fmap_S_seq, <-list_fmap_compose. done. }
  by rewrite Heq.
Qed.

End TopK.

(** ** Negative counts, filters and errors *)

Section Edges.
Context `{NumPy, Sklearn, Transformers}.
Context `{!NumPyLaws, !SklearnLaws}.

(** With a negative count the index list is the full ranking without its
    last entries, and so is the list of result dictionaries. *)
Lemma top_results_take (d : DataFrame) (score : vector) (k : Z)
    (full : list row) :
  length score = length d → k < 0 →
  top_results d score (Z.of_nat (length d)) = Ok full →
  top_results d score k = Ok (take (length d - Z.to_nat (- k)) full).
Proof.
  intros Hl Hk. unfold top_results, iloc, top_idx.
  rewrite py_slice_to_all by (rewrite argsort_length, length_fmap; lia).
  unfold py_slice_to. rewrite decide_False by lia.
  rewrite argsort_length, length_fmap, Hl.
  destruct (np_take d (argsort _)) as [rs|] eqn:Hrs; [|done].
  simpl. intros Hfull. apply bind_Ok in Hfull as (ss & Hss & [= <-]).
  rewrite (np_take_take _ _ _ _ Hrs). simpl.
  rewrite (np_take_take _ _ _ _ Hss). simpl.
  by rewrite zip_with_take.
Qed.

(** X3.  A negative count [k] does not make a strategy fail where the full
    ranking succeeds: the call returns the full ranking -- the one obtained
    with the corpus size as count -- without its last [|k|] entries, and
    leaves the generator as the full call does. *)
Theorem negative_count_drops_tail (st : strategy) (e : SearchEngine)
    (d : DataFrame) (query field : string) (n_components k : Z)
    (boost : gmap string Q) (filters : list (string * string))
    (g g' : RandomState) (full : list row) :
  aligned e d → k < 0 →
  rank st e query field n_components (Z.of_nat (length d)) boost filters g
  = (Ok full, g') →
  rank st e query field n_components k boost filters g
  = (Ok (take (length d - Z.to_nat (- k)) full), g').
Proof.
  intros (Hd & Hal & Hemb) Hk Hres. destruct st; simpl in *.
  - injection Hres as Hres <-.
    apply search_tfidf_inv in Hres as (d' & score0 & score & Hd' & Hs0 & Hf & Hres).
    assert (d' = d) as -> by congruence.
    unfold search_tfidf. rewrite Hd, Hs0. simpl. rewrite Hf. simpl. f_equal.
    apply top_results_take; [| done | done].
    eapply apply_filters_length; [|done].
    eapply tfidf_scores_length; [done | | done]. apply length_replicate.
  - apply search_svd_inv in Hres
      as (d' & X & svd & X_emb & cv & score & Hd' & HX & Hfit & Hcv & Hf & Hres).
    assert (d' = d) as -> by congruence.
    unfold search_svd, getitem. rewrite Hd, HX, Hfit, Hcv. simpl.
    rewrite Hf. simpl. f_equal.
    apply top_results_take; [| done | done].
    eapply apply_filters_length; [|done].
    rewrite cosine_similarity_length, (svd_fit_transform_rows _ _ _ _ _ _ Hfit).
    by apply (Hal field).
  - apply search_nmf_inv in Hres
      as (d' & X & nmf & X_emb & cv & Hd' & HX & Hfit & Hcv & Hres).
    assert (d' = d) as -> by congruence.
    unfold search_nmf, getitem. rewrite Hd, HX, Hfit, Hcv. simpl. f_equal.
    apply top_results_take; [| done | done].
    rewrite cosine_similarity_length, (nmf_fit_transform_rows _ _ _ _ _ _ Hfit).
    by apply (Hal field).
  - injection Hres as Hres <-. pose proof Hres as Hcall.
    apply search_bert_inv in Hres
      as (d' & E & query_emb & score & Hd' & HE & Hq & Hf & Hres).
    assert (d' = d) as -> by congruence.
    assert (bert_available e = true) as Hb.
    { unfold search_bert in Hcall. rewrite HE, Hd in Hcall.
      by destruct (bert_available e). }
    unfold search_bert. rewrite HE, Hd, Hb, Hq. simpl. rewrite Hf. simpl. f_equal.
    apply top_results_take; [| done | done].
    eapply apply_filters_length; [|done].
    rewrite HE in Hemb. by rewrite cosine_similarity_length.
Qed.

(** The filter loop succeeds exactly when every filter field is a column. *)
Lemma apply_filters_Ok_columns (d : DataFrame) (filters : list (string * string))
    (score score' : vector) :
  apply_filters d filters score = Ok score' →
  Forall (λ fv, fv.1 ∈ columns d) filters.
Proof.
  revert score. induction filters as [|[field value] filters IH]; intros score;
    [constructor |].
  simpl. intros Hres. apply bind_Ok in Hres as (col & Hcol & Hres).
  apply bind_Ok in Hres as (score1 & _ & Hres).
  constructor; [|by eapply IH].
  unfold df_column in Hcol. by case_decide.
Qed.

Lemma passes_Permutation (r : gmap string string)
    (filters filters' : list (string * string)) :
  filters ≡ₚ filters' → passes r filters ↔ passes r filters'.
Proof. intros Hp. unfold passes. by rewrite Hp. Qed.

(** X5.  The order of the filter entries does not matter. *)
Theorem apply_filters_Permutation (d : DataFrame)
    (filters filters' : list (string * string)) (score score1 : vector) :
  length score = length d → filters ≡ₚ filters' →
  apply_filters d filters score = Ok score1 →
  ∃ score2, apply_filters d filters' score = Ok score2
            ∧ Forall2 Qeq score1 score2.
Proof.
  intros Hl Hp Hs1.
  destruct (apply_filters_total d filters' score Hl) as [score2 Hs2].
  { rewrite <-Hp. by eapply apply_filters_Ok_columns. }
  exists score2. split; [done |].
  pose proof (apply_filters_length _ _ _ _ Hl Hs1) as Hl1.
  pose proof (apply_filters_length _ _ _ _ Hl Hs2) as Hl2.
  apply Forall2_same_length_lookup_2; [congruence |].
  intros i s1 s2 Hi1 Hi2.
  destruct (lookup_lt_is_Some_2 d i) as [r Hr].
  { rewrite <-Hl1. by eapply lookup_lt_Some. }
  destruct (lookup_lt_is_Some_2 score i) as [s Hs].
  { rewrite Hl. by eapply lookup_lt_Some. }
  destruct (apply_filters_lookup _ _ _ _ _ _ _ Hl Hs1 Hr Hs) as (? & ? & Heq1).
  destruct (apply_filters_lookup _ _ _ _ _ _ _ Hl Hs2 Hr Hs) as (? & ? & Heq2).
  simplify_eq. rewrite Heq1, Heq2.
  by rewrite (bool_decide_ext _ _ (passes_Permutation r _ _ Hp)).
Qed.

(** X6.  On a fitted engine the lexical strategy returns a result for every
    query, count and boost, provided the filter fields are columns. *)
Theorem search_tfidf_total (e : SearchEngine) (d : DataFrame) (query : string)
    (k : Z) (boost : gmap string Q) (filters : list (string * string)) :
  aligned e d → fitted e →
  Forall (λ fv, fv.1 ∈ columns d) filters →
  ∃ res, search_tfidf e query k boost filters = Ok res.
Proof.
  intros (Hd & Hal & _) Hfit Hcols. unfold search_tfidf. rewrite Hd.
  destruct (tfidf_scores_total e query boost (text_fields e) (length d)
              (np_zeros (length d)) Hal (length_replicate _ _) Hfit)
    as [score0 Hs0].
  rewrite Hs0. simpl.
  pose proof (tfidf_scores_length _ _ _ _ _ _ _ Hal (length_replicate _ _) Hs0) as Hl0.
  destruct (apply_filters_total d filters score0 Hl0 Hcols) as [score Hs].
  rewrite Hs. simpl.
  apply top_results_total. by eapply apply_filters_length.
Qed.

Lemma apply_filters_KeyError (d : DataFrame) (pre post : list (string * string))
    (field value : string) (score : vector) :
  length score = length d →
  Forall (λ fv, fv.1 ∈ columns d) pre → field ∉ columns d →
  apply_filters d (pre ++ (field, value) :: post) score = Raise (KeyError field).
Proof.
  intros Hl Hpre Hf. revert score Hl.
  induction Hpre as [|[f v] pre Hfv _ IH]; intros score Hl; simpl.
  - unfold df_column. by rewrite decide_False.
  - unfold df_column. rewrite decide_True by done. simpl.
    rewrite np_binop_same_length by (by rewrite !length_fmap). simpl.
    apply IH. rewrite length_zip_with, !length_fmap. lia.
Qed.

(** X7.  A filter on a field that no record has makes the lexical strategy raise
    [KeyError] for the first such field. *)
Theorem search_tfidf_unknown_filter_field (e : SearchEngine) (d : DataFrame)
    (query : string) (k : Z) (boost : gmap string Q)
    (pre post : list (string * string)) (field value : string) :
  aligned e d → fitted e →
  Forall (λ fv, fv.1 ∈ columns d) pre → field ∉ columns d →
  search_tfidf e query k boost (pre ++ (field, value) :: post)
  = Raise (KeyError field).
Proof.
  intros (Hd & Hal & _) Hfit Hpre Hf. unfold search_tfidf. rewrite Hd.
  destruct (tfidf_scores_total e query boost (text_fields e) (length d)
              (np_zeros (length d)) Hal (length_replicate _ _) Hfit)
    as [score0 Hs0].
  rewrite Hs0. simpl.
  pose proof (tfidf_scores_length _ _ _ _ _ _ _ Hal (length_replicate _ _) Hs0) as Hl0.
  by rewrite apply_filters_KeyError.
Qed.

(** X8.  Before [fit] every strategy raises [ValueError] and leaves the
    random generator alone.  The message asks for [fit], except that the
    embedding strategy looks at the embeddings first: when they are missing
    as well, its message asks for them. *)
Theorem rank_before_fit (st : strategy) (e : SearchEngine)
    (query field : string) (n_components k : Z) (boost : gmap string Q)
    (filters : list (string * string)) (g : RandomState) :
  df e = None →
  rank st e query field n_components k boost filters g
  = (Raise (ValueError
              match st, embeddings e with
              | Embedding, None =>
                  "BERT embeddings non caricati. Usa load_bert_embeddings()"
              | _, _ => "Devi prima chiamare fit() per preparare il motore"
              end), g).
Proof.
  intros Hd. destruct st; simpl.
  - unfold search_tfidf. by rewrite Hd.
  - unfold search_svd. by rewrite Hd.
  - unfold search_nmf. by rewrite Hd.
  - unfold search_bert. rewrite Hd. by destruct (embeddings e).
Qed.

(** X9.  Boost entries matter only through the configured text fields: two
    mappings that agree on them, a missing entry counting as 1, give the
    same Score Vector. *)
Theorem tfidf_scores_boost_ext (e : SearchEngine) (query : string)
    (boost boost' : gmap string Q) (fields : list string) (acc : vector) :
  Forall (λ f, default 1%Q (boost !! f) = default 1%Q (boost' !! f)) fields →
  tfidf_scores e query boost fields acc = tfidf_scores e query boost' fields acc.
Proof.
  intros Hb. revert acc. induction Hb as [|f fields Hf _ IH]; intros acc; simpl;
    [done |].
  rewrite Hf. destruct (getitem (vectorizers e) f) as [cv|]; simpl; [|done].
  destruct (getitem (matrices e) f) as [X|]; simpl; [|done].
  destruct (np_binop _ _ _) as [acc'|]; simpl; [apply IH | done].
Qed.

End Edges.

(** ** [fit], startup and the course list *)

Section Startup.
Context `{NumPy, Sklearn, Transformers, FileSystem}.

(** Whatever its answer, creation leaves the frame as it is and, when it
    changes the embeddings, installs a matrix with one row per record. *)
Lemma create_bert_embeddings_inv (path : string) (e e' : SearchEngine)
    (fs fs' : gmap string (list (list Q))) (b : bool) :
  create_bert_embeddings path e fs = (b, e', fs') →
  (e' = e ∧ fs' = fs ∧ b = false)
  ∨ ∃ d E, df e = Some d ∧ bert_available e = true
           ∧ encode_documents (document_text (columns d) <$> d) = Ok E
           ∧ e' = set_embeddings E e
           ∧ match pickle_dump path with
             | Written => b = true ∧ fs' = <[path := E]> fs
             | OpenFailed => b = false ∧ fs' = fs
             | DumpFailed => b = false ∧ fs' = delete path fs
             end.
Proof.
  unfold create_bert_embeddings.
  destruct (bert_available e) eqn:Hb; [|intros [= <- <- <-]; by left].
  destruct (df e) as [d|] eqn:Hd; [|intros [= <- <- <-]; by left].
  destruct (encode_documents _) as [E|] eqn:HE; [|intros [= <- <- <-]; by left].
  intros Hc. right. exists d, E.
  destruct (pickle_dump path); injection Hc as <- <- <-; done.
Qed.

(** X11.  When the first configured text field is no column of the records --
    on an empty corpus, for one -- [fit] raises [KeyError] for it, having
    already stored the frame: no vectorizer is fitted. *)
Theorem fit_missing_first_field (records : DataFrame)
    (params : gmap string cell) (e : SearchEngine) (f : string)
    (fields : list string) :
  text_fields e = f :: fields → f ∉ columns records →
  fit records params e = (Raise (KeyError f), set_df records e).
Proof.
  intros Htf Hf. unfold fit. rewrite Htf. simpl.
  unfold df_column. by rewrite decide_False.
Qed.

Lemma load_or_create_df (filepath : string) (e : SearchEngine)
    (fs : gmap string (list (list Q))) :
  df (load_or_create_bert_embeddings filepath e fs).1.2 = df e.
Proof.
  unfold load_or_create_bert_embeddings, load_bert_embeddings.
  destruct (fs !! filepath) as [E|]; [done |].
  destruct (create_bert_embeddings filepath e fs) as [[b e'] fs'] eqn:Hc.
  apply create_bert_embeddings_inv in Hc
    as [(-> & _)|(d & E & _ & _ & _ & -> & _)]; done.
Qed.

Lemma startup_event_df (documents_raw : list Course) (e : SearchEngine)
    (fs : gmap string (list (list Q))) :
  df (startup_event documents_raw e fs).1 = Some (flatten_documents documents_raw).
Proof.
  unfold startup_event.
  pose proof (fit_df (flatten_documents documents_raw)
                default_vectorizer_params e) as Hdf.
  destruct (fit _ _ e) as [[[]|x] e']; simpl in *; [|done].
  pose proof (load_or_create_df "embeddings.bin" e' fs) as Hdf'.
  destruct (load_or_create_bert_embeddings _ e' fs) as [[b e''] fs'].
  simpl in *. congruence.
Qed.

(** X12.  Once the documents are downloaded the health route reports the engine
    as ready, whether [fit] ran through or raised. *)
Theorem engine_ready_after_startup (documents_raw : list Course)
    (e : SearchEngine) (fs : gmap string (list (list Q))) :
  engine_ready (startup_event documents_raw e fs).1 = true.
Proof. unfold engine_ready. by rewrite startup_event_df. Qed.

Lemma elem_of_flatten_documents (documents_raw : list Course)
    (r : gmap string string) :
  r ∈ flatten_documents documents_raw ↔
  ∃ c doc, c ∈ documents_raw ∧ doc ∈ documents c ∧ r = <["course" := course c]> doc.
Proof.
  unfold flatten_documents. rewrite list_elem_of_bind. split.
  - intros (c & (doc & -> & Hdoc)%list_elem_of_fmap & Hc). eauto.
  - intros (c & doc & Hc & Hdoc & ->). exists c. split; [|done].
    apply list_elem_of_fmap. eauto.
Qed.

Lemma elem_of_columns (d : DataFrame) (f : string) :
  f ∈ columns d ↔ ∃ r : gmap string string, r ∈ d ∧ is_Some (r !! f).
Proof.
  unfold columns. rewrite elem_of_union_list. split.
  - intros (X & (r & -> & Hr)%list_elem_of_fmap & Hf%elem_of_dom). eauto.
  - intros (r & Hr & Hf). exists (dom r). split; [|by apply elem_of_dom].
    apply list_elem_of_fmap. eauto.
Qed.

(** X13.  After startup on courses of which one at least has a document, the
    course list holds the name of every course that has a document, once. *)
Theorem startup_courses (documents_raw : list Course) (e : SearchEngine)
    (fs : gmap string (list (list Q))) :
  flatten_documents documents_raw ≠ [] →
  ∃ courses,
    get_available_courses (startup_event documents_raw e fs).1 = Ok courses
    ∧ NoDup courses
    ∧ ∀ x, x ∈ courses ↔
           ∃ c, c ∈ documents_raw ∧ documents c ≠ [] ∧ x = Str (course c).
Proof.
  intros Hne. unfold get_available_courses. rewrite startup_event_df.
  unfold df_column. rewrite decide_True.
  - simpl. eexists. split_and!; [done | apply unique_NoDup |].
    intros x. rewrite elem_of_unique, list_elem_of_fmap. split.
    + intros (r & -> & (c & doc & Hc & Hdoc & ->)%elem_of_flatten_documents).
      exists c. split_and!; [done | by intros Hnil; rewrite Hnil in Hdoc;
                                      apply elem_of_nil in Hdoc |].
      by rewrite lookup_insert_eq.
    + intros (c & Hc & Hdocs & ->).
      destruct (documents c) as [|doc docs] eqn:Hd; [done |].
      exists (<["course" := course c]> doc). split; [by rewrite lookup_insert_eq |].
      apply elem_of_flatten_documents. exists c, doc.
      split_and!; [done | rewrite Hd; by left | done].
  - destruct (flatten_documents documents_raw) as [|r d] eqn:Hfl; [done |].
    apply elem_of_columns. exists r. split; [by left |].
    assert (r ∈ flatten_documents documents_raw) as Hr by (rewrite Hfl; by left).
    apply elem_of_flatten_documents in Hr as (c & doc & _ & _ & ->).
    by rewrite lookup_insert_eq.
Qed.

Context `{!SklearnLaws}.

(** X14.  After a startup whose [fit] ran through, every matrix of the engine --
    the embeddings included -- has one row per document. *)
Theorem startup_aligned (documents_raw : list Course) (text_fields : list string)
    (bert_loaded : bool) (fs : gmap string (list (list Q))) :
  (fit (flatten_documents documents_raw) default_vectorizer_params
     (init text_fields bert_loaded)).1 = Ok () →
  map_Forall (λ _ E, length E = length (flatten_documents documents_raw)) fs →
  aligned (startup_event documents_raw (init text_fields bert_loaded) fs).1
    (flatten_documents documents_raw)
  ∧ fitted (startup_event documents_raw (init text_fields bert_loaded) fs).1.
Proof.
  intros Hfit Hfs. unfold startup_event.
  apply pair_eta_Ok in Hfit. rewrite Hfit.
  apply fit_aligned in Hfit as [(Hd & Hal & Hemb) Hfitted].
  set (e' := (fit _ _ _).2) in *. clearbody e'.
  unfold load_or_create_bert_embeddings, load_bert_embeddings.
  destruct (fs !! "embeddings.bin") as [E|] eqn:HE; simpl.
  - split; [|done]. split_and!; [done.. |]. simpl. by apply (Hfs _ _ HE).
  - destruct (create_bert_embeddings "embeddings.bin" e' fs) as [[b e''] fs']
      eqn:Hc.
    apply create_bert_embeddings_inv in Hc
      as [(-> & _)|(d & E & Hd' & _ & HEnc & -> & _)]; simpl; [done |].
    split; [|done]. split_and!; [done.. |]. simpl.
    apply encode_documents_length in HEnc. rewrite length_fmap in HEnc.
    congruence.
Qed.

End Startup.

(** ** The embedding store *)

Section Store.
Context `{NumPy, Sklearn, Transformers, FileSystem}.

(** X15.  What [create_bert_embeddings] writes, [load_bert_embeddings] reads back:
    loading the path into any engine installs the matrix the creation
    computed. *)
Theorem create_then_load (path : string) (e e' other : SearchEngine)
    (fs fs' : gmap string (list (list Q))) :
  create_bert_embeddings path e fs = (true, e', fs') →
  ∃ E, embeddings e' = Some E
       ∧ load_bert_embeddings path other fs' = (true, set_embeddings E other).
Proof.
  intros [(_ & _ & [=])|(d & E & _ & _ & _ & -> & Hw)]%create_bert_embeddings_inv.
  destruct (pickle_dump path); destruct Hw as [? ->]; try done.
  exists E. split; [done |].
  unfold load_bert_embeddings. by rewrite lookup_insert_eq.
Qed.

(** X16.  [load_or_create_bert_embeddings] is idempotent: after a successful run,
    a second run changes neither the engine nor the files. *)
Theorem load_or_create_idempotent (path : string) (e e1 : SearchEngine)
    (fs fs1 : gmap string (list (list Q))) :
  load_or_create_bert_embeddings path e fs = (true, e1, fs1) →
  load_or_create_bert_embeddings path e1 fs1 = (true, e1, fs1).
Proof.
  unfold load_or_create_bert_embeddings, load_bert_embeddings.
  destruct (fs !! path) as [E|] eqn:HE.
  - intros [= <- <-]. by rewrite HE.
  - intros [(_ & _ & [=])|(d & E & _ & _ & _ & -> & Hw)]%create_bert_embeddings_inv.
    destruct (pickle_dump path); destruct Hw as [? ->]; try done.
    by rewrite lookup_insert_eq.
Qed.

(** X17.  With a file at the path nothing is recomputed: the stored matrix is
    installed and the files stay as they are. *)
Theorem load_or_create_prefers_file (path : string) (e : SearchEngine)
    (fs : gmap string (list (list Q))) (E : list (list Q)) :
  fs !! path = Some E →
  load_or_create_bert_embeddings path e fs = (true, set_embeddings E e, fs).
Proof.
  intros HE. unfold load_or_create_bert_embeddings, load_bert_embeddings.
  by rewrite HE.
Qed.

(** X18.  An initialisation answers [False] only when no readable file is at
    the path, and then in one of two ways.  Either nothing has changed: the
    encoder is unavailable, no frame is stored, or the encoder raised on a
    document.  Or the embeddings were computed and the write failed: the
    engine then holds the new matrix, one row per record, although no
    readable file exists. *)
Theorem load_or_create_failure (path : string) (e e1 : SearchEngine)
    (fs fs1 : gmap string (list (list Q))) :
  load_or_create_bert_embeddings path e fs = (false, e1, fs1) →
  fs !! path = None ∧ fs1 !! path = None
  ∧ ((e1 = e ∧ fs1 = fs
      ∧ (bert_available e = false ∨ df e = None
         ∨ ∃ d x, df e = Some d
                  ∧ encode_documents (document_text (columns d) <$> d) = Raise x))
     ∨ (∃ d E, df e = Some d
               ∧ encode_documents (document_text (columns d) <$> d) = Ok E
               ∧ length E = length d
               ∧ e1 = set_embeddings E e
               ∧ pickle_dump path ≠ Written)).
Proof.
  unfold load_or_create_bert_embeddings, load_bert_embeddings.
  destruct (fs !! path) as [E0|] eqn:HE0; [done |].
  unfold create_bert_embeddings.
  destruct (bert_available e) eqn:Hb; [|intros [= <- <-]; auto 10].
  destruct (df e) as [d|] eqn:Hd; [|intros [= <- <-]; auto 10].
  destruct (encode_documents _) as [E|x] eqn:HE;
    [|intros [= <- <-]; split_and!; [done.. |]; left; eauto 10].
  assert (length E = length d) as Hl.
  { apply encode_documents_length in HE. by rewrite length_fmap in HE. }
  destruct (pickle_dump path) eqn:Hw; intros [= <- <-].
  - split_and!; [done.. |]. right. by exists d, E.
  - split_and!; [done | apply lookup_delete_eq |]. right. by exists d, E.
Qed.

(** X19.  The embedding strategy is listed exactly when embeddings are held; the
    three other strategies always are. *)
Theorem available_methods_bert (e : SearchEngine) :
  ("bert" ∈ get_available_methods e ↔ is_Some (embeddings e))
  ∧ ["tfidf"; "svd"; "nmf"] `prefix_of` get_available_methods e.
Proof.
  unfold get_available_methods. destruct (embeddings e) as [E|]; split.
  - split; [eauto | intros _]. apply list_elem_of_In; simpl; tauto.
  - by eexists.
  - split; [|by intros [? ?]]. intros Hin.
    repeat (apply elem_of_cons in Hin as [?|Hin]; [done |]).
    by apply elem_of_nil in Hin.
  - by exists [].
Qed.

(** X20.  Creation keeps the engine aligned and makes the embedding strategy
    available: the new matrix has one row per record. *)
Theorem create_keeps_aligned (path : string) (e e' : SearchEngine)
    (d : DataFrame) (fs fs' : gmap string (list (list Q))) :
  aligned e d →
  create_bert_embeddings path e fs = (true, e', fs') →
  aligned e' d ∧ "bert" ∈ get_available_methods e'.
Proof.
  intros (Hd & Hal & _).
  intros [(_ & _ & [=])|(d' & E & Hd' & _ & HE & -> & _)]%create_bert_embeddings_inv.
  assert (d' = d) as -> by congruence. split.
  - split_and!; [done.. |]. simpl.
    apply encode_documents_length in HE. by rewrite length_fmap in HE.
  - unfold get_available_methods. simpl. apply list_elem_of_In; simpl; tauto.
Qed.

End Store.

(** ** The handler *)

Section Handler.
Context `{NumPy, Sklearn, Transformers}.

(** The three input checks of the handler. *)
Lemma search_checked (e : SearchEngine) (request : SearchRequest)
    (g : RandomState) :
  strip (query request) ≠ "" →
  1 ≤ n_results request ≤ 100 →
  ((method request = "svd" ∨ method request = "nmf") →
   1 ≤ n_components request ≤ 100) →
  search e request g
  = match dispatch e request g with
    | (inl results, g') =>
        (Response {| results := results;
                     response_method := method request;
                     response_query := query request;
                     total_results := length results |}, g')
    | (inr x, g') =>
        (HTTPException 500 ("Errore durante la ricerca: " +:+ str_raised x), g')
    end.
Proof.
  intros Hq Hn Hc. unfold search.
  rewrite decide_False by done. rewrite decide_False by lia.
  rewrite decide_False; [done |]. intros [Hm ?]. specialize (Hc Hm). lia.
Qed.

(** X21.  Status 400 is the answer exactly when one of the input checks fails:
    blank query, count outside 1..100, or -- for svd and nmf -- rank outside
    1..100.  The random generator is then untouched. *)
Theorem search_400_iff (e : SearchEngine) (request : SearchRequest)
    (g : RandomState) :
  (∃ detail g', search e request g = (HTTPException 400 detail, g'))
  ↔ strip (query request) = ""
    ∨ n_results request ≤ 0 ∨ n_results request > 100
    ∨ ((method request = "svd" ∨ method request = "nmf")
       ∧ (n_components request ≤ 0 ∨ n_components request > 100)).
Proof.
  split.
  - intros (detail & g' & Hs).
    destruct (decide (strip (query request) = "")) as [|Hq]; [by left |].
    destruct (decide (n_results request ≤ 0 ∨ n_results request > 100))
      as [|Hn]; [right; tauto |].
    destruct (decide ((method request = "svd" ∨ method request = "nmf")
                      ∧ (n_components request ≤ 0 ∨ n_components request > 100)))
      as [|Hc]; [right; right; by right |].
    rewrite search_checked in Hs; [| done | lia |].
    2:{ intros Hm.
        destruct (decide (n_components request ≤ 0 ∨ n_components request > 100));
          [exfalso; apply Hc; tauto | lia]. }
    by destruct (dispatch e request g) as [[res|x] g1].
  - intros Hbad. unfold search.
    case_decide; [by eexists _, _ |].
    case_decide; [by eexists _, _ |].
    case_decide; [by eexists _, _ |].
    exfalso. destruct Hbad as [?|[?|[?|?]]]; tauto.
Qed.

(** X22.  An unknown method, or the embedding method without embeddings, is
    refused with status 400 inside the [try] block, which the handler's
    [except Exception] turns into status 500. *)
Theorem search_inner_refusal_is_500 (e : SearchEngine)
    (request : SearchRequest) (g : RandomState) :
  strip (query request) ≠ "" → 1 ≤ n_results request ≤ 100 →
  method request ∉ ["tfidf"; "svd"; "nmf"; "bert"]
  ∨ (method request = "bert" ∧ embeddings e = None) →
  ∃ detail, search e request g = (HTTPException 500 detail, g).
Proof.
  intros Hq Hn Hm. rewrite search_checked; [| done | done |].
  - unfold dispatch. destruct Hm as [Hm|[Hm He]].
    + rewrite !decide_False
        by (intros Heq; apply Hm; rewrite Heq; apply list_elem_of_In; simpl; tauto).
      by eexists.
    + rewrite Hm. simpl.
      rewrite decide_False; [by eexists |].
      unfold get_available_methods. rewrite He.
      intros Hin%list_elem_of_In. simpl in Hin. intuition discriminate.
  - intros [Heq|Heq]; destruct Hm as [Hm|[Hm _]];
      first [ exfalso; apply Hm; rewrite Heq; apply list_elem_of_In; simpl; tauto
            | congruence ].
Qed.

Lemma dispatch_inl (e : SearchEngine) (request : SearchRequest)
    (g g' : RandomState) (res : list row) :
  dispatch e request g = (inl res, g') →
  ∃ st, rank st e (query request) (field request) (n_components request)
          (n_results request) (boost request) (filters request) g
        = (Ok res, g')
        ∧ method request ∈ ["tfidf"; "svd"; "nmf"; "bert"].
Proof.
  unfold dispatch. repeat case_decide.
  - destruct (search_tfidf _ _ _ _ _) as [r|] eqn:Hr; intros [= <- <-].
    exists Lexical. simpl. rewrite Hr. split; [done |].
    apply list_elem_of_In; simpl; intuition congruence.
  - destruct (search_svd _ _ _ _ _ _ _) as [[r|] g1] eqn:Hr; intros [= <- <-].
    exists LinearFactorization. simpl. rewrite Hr. split; [done |].
    apply list_elem_of_In; simpl; intuition congruence.
  - destruct (search_nmf _ _ _ _ _ _ _) as [[r|] g1] eqn:Hr; intros [= <- <-].
    exists NonNegativeFactorization. simpl. rewrite Hr. split; [done |].
    apply list_elem_of_In; simpl; intuition congruence.
  - destruct (search_bert _ _ _ _ _) as [r|] eqn:Hr; intros [= <- <-].
    exists Embedding. simpl. rewrite Hr. split; [done |].
    apply list_elem_of_In; simpl; intuition congruence.
  - done.
  - done.
Qed.

Context `{!NumPyLaws, !SklearnLaws}.

(** X23.  A successful response echoes method and query, counts its results, holds
    at most [n_results] (hence at most 100) of them, sorted by non-increasing
    score, and is given only for one of the four methods. *)
Theorem search_response (e : SearchEngine) (request : SearchRequest)
    (g g' : RandomState) (r : SearchResponse) :
  search e request g = (Response r, g') →
  response_method r = method request
  ∧ response_query r = query request
  ∧ total_results r = length (results r)
  ∧ (Z.of_nat (total_results r) ≤ n_results request ≤ 100)
  ∧ StronglySorted (λ x y, (row_score y <= row_score x)%Q) (results r)
  ∧ method request ∈ ["tfidf"; "svd"; "nmf"; "bert"].
Proof.
  unfold search. case_decide; [done |]. case_decide as Hn; [done |].
  case_decide; [done |].
  destruct (dispatch e request g) as [[res|x] g1] eqn:Hdisp; [|done].
  intros [= <- <-]. simpl.
  apply dispatch_inl in Hdisp as (st & Hrank & Hm).
  apply rank_inv in Hrank as (d & score & _ & Hres & _).
  pose proof (top_results_sorted _ _ _ _ Hres) as Hsorted.
  assert (0 ≤ n_results request) as Hk by lia.
  pose proof (top_results_length _ _ _ _ Hres Hk) as Hlen.
  split_and!; [done.. | lia | lia | done | done].
Qed.

End Handler.

(** ** The mask, entry by entry, and the invariant of [fit] *)

(** X4.  After the filter loop the entry of a record that passes every filter is
    its old entry, and the entry of a record that fails one is zero. *)
Theorem filter_mask_pointwise (d : DataFrame) (filters : list (string * string))
    (score score' : vector) (i : nat) (r : gmap string string) (s : Q) :
  length score = length d →
  apply_filters d filters score = Ok score' →
  d !! i = Some r → score !! i = Some s →
  ∃ s', score' !! i = Some s'
        ∧ (passes r filters → (s' == s)%Q)
        ∧ (¬ passes r filters → (s' == 0)%Q).
Proof.
  intros Hl Hres Hr Hs.
  destruct (apply_filters_lookup _ _ _ _ _ _ _ Hl Hres Hr Hs) as (s' & Hs' & Heq).
  exists s'. split_and!; [done | |]; intros Hp; rewrite Heq.
  - rewrite (bool_decide_eq_true_2 _ Hp). simpl. ring.
  - rewrite (bool_decide_eq_false_2 _ Hp). simpl. ring.
Qed.

(** X10.  A [fit] that runs through on a fresh engine leaves one vectorizer and one
    matrix per configured text field, each matrix with one row per record. *)
Theorem fit_establishes_invariant `{Sklearn} `{!SklearnLaws}
    (records : DataFrame) (params : gmap string cell)
    (fields : list string) (bert_loaded : bool) (e' : SearchEngine) :
  fit records params (init fields bert_loaded) = (Ok (), e') →
  df e' = Some records
  ∧ Forall (λ f, ∃ cv X, vectorizers e' !! f = Some cv
                         ∧ matrices e' !! f = Some X
                         ∧ length X = length records) fields.
Proof.
  intros Hfit.
  assert (text_fields e' = fields) as Htf.
  { unfold fit in Hfit. apply fit_fields_Ok in Hfit as (_ & _ & Htf & _);
      [done | apply map_Forall_empty]. }
  apply fit_aligned in Hfit as [(Hd & Hal & _) Hfitted].
  split; [done |]. unfold fitted in Hfitted. rewrite Htf in Hfitted.
  eapply Forall_impl; [exact Hfitted |].
  intros f [[cv Hcv] [X HX]]. exists cv, X. split_and!; [done.. |].
  by apply (Hal f).
Qed.

(** ** Closed instances of the further properties *)

#[local] Existing Instance numpy_merge_sort.
#[local] Existing Instance toy_sklearn.
#[local] Existing Instance toy_transformers.
#[local] Existing Instance toy_filesystem.
#[local] Existing Instance numpy_merge_sort_laws.
#[local] Existing Instance toy_sklearn_laws.

Lemma engine_AB_rows_aligned : aligned engine_AB corpus_AB.
Proof.
  split_and!; [reflexivity | | exact I]. unfold rows_aligned. by_evaluation.
Qed.

Lemma top_results_dominate_witness :
  (0 <= row_score (to_dict_row (columns corpus_AB) record_B 1))%Q.
Proof.
  eapply (top_results_dominate corpus_AB [0%Q; 1%Q] 1
            [to_dict_row (columns corpus_AB) record_B 1] _ 0%nat 0%Q).
  - by_evaluation.
  - by left.
  - reflexivity.
  - by_evaluation.
Defined.

Lemma top_results_all_witness :
  [to_dict_row (columns corpus_AB) record_B 1;
   to_dict_row (columns corpus_AB) record_A 0]
  ≡ₚ zip_with (to_dict_row (columns corpus_AB)) corpus_AB [0%Q; 1%Q].
Proof.
  apply (top_results_all corpus_AB [0%Q; 1%Q] 5).
  - by_evaluation.
  - reflexivity.
  - simpl. lia.
Defined.

Lemma negative_count_drops_tail_witness :
  rank LinearFactorization engine_AB "java" "text" 2 (-1) ∅ [("course", "A")]
    (0%nat : @RandomState toy_sklearn)
  = (Ok (take (length corpus_AB - Z.to_nat (- -1))
           [to_dict_row (columns corpus_AB) record_A 0;
            to_dict_row (columns corpus_AB) record_B 0]),
     (1%nat : @RandomState toy_sklearn)).
Proof.
  apply (negative_count_drops_tail LinearFactorization engine_AB corpus_AB
           "java" "text" 2 (-1) ∅ [("course", "A")]
           (0%nat : @RandomState toy_sklearn)
           (1%nat : @RandomState toy_sklearn)).
  - split_and!; [reflexivity | unfold rows_aligned; by_evaluation | exact I].
  - lia.
  - by_evaluation.
Defined.

(** The same on the lexical strategy: of the two records ranked for 'java',
    the call with count -1 returns the first. *)
Example negative_count_run :
  search_tfidf engine_AB "java" 2 ∅ []
  = Ok [to_dict_row (columns corpus_AB) record_B 1;
        to_dict_row (columns corpus_AB) record_A 0]
  ∧ search_tfidf engine_AB "java" (-1) ∅ []
    = Ok [to_dict_row (columns corpus_AB) record_B 1].
Proof. split; by_evaluation. Qed.

Lemma filter_mask_pointwise_witness :
  ∃ s', [0%Q; 1%Q] !! 0%nat = Some s'
        ∧ (passes record_A [("course", "B")] → (s' == 1)%Q)
        ∧ (¬ passes record_A [("course", "B")] → (s' == 0)%Q).
Proof.
  apply (filter_mask_pointwise corpus_AB [("course", "B")] [1%Q; 1%Q]
           [0%Q; 1%Q] 0 record_A 1%Q).
  - reflexivity.
  - by_evaluation.
  - reflexivity.
  - reflexivity.
Defined.

Lemma apply_filters_Permutation_witness :
  ∃ score2,
    apply_filters corpus_AB [("text", "java"); ("course", "B")] [1%Q; 1%Q]
    = Ok score2
    ∧ Forall2 Qeq [0%Q; 1%Q] score2.
Proof.
  apply (apply_filters_Permutation corpus_AB
           [("course", "B"); ("text", "java")]
           [("text", "java"); ("course", "B")] [1%Q; 1%Q] [0%Q; 1%Q]).
  - reflexivity.
  - apply perm_swap.
  - by_evaluation.
Defined.

Lemma search_tfidf_total_witness :
  ∃ res, search_tfidf engine_AB "java" 2 ∅ [("course", "B")] = Ok res.
Proof.
  apply (search_tfidf_total engine_AB corpus_AB "java" 2 ∅ [("course", "B")]).
  - split_and!; [reflexivity | unfold rows_aligned; by_evaluation | exact I].
  - unfold fitted. by_evaluation.
  - by_evaluation.
Defined.

Lemma search_tfidf_unknown_filter_field_witness :
  search_tfidf engine_AB "java" 2 ∅
    ([("course", "B")] ++ ("level", "easy") :: [("text", "java")])
  = Raise (KeyError "level").
Proof.
  apply (search_tfidf_unknown_filter_field engine_AB corpus_AB "java" 2 ∅
           [("course", "B")] [("text", "java")] "level" "easy").
  - split_and!; [reflexivity | unfold rows_aligned; by_evaluation | exact I].
  - unfold fitted. by_evaluation.
  - by_evaluation.
  - by_evaluation.
Defined.

Lemma rank_before_fit_witness :
  rank Embedding (init default_text_fields true) "java" "text" 16 10 ∅ []
    (0%nat : @RandomState toy_sklearn)
  = (Raise (ValueError "BERT embeddings non caricati. Usa load_bert_embeddings()"),
     (0%nat : @RandomState toy_sklearn)).
Proof.
  apply (rank_before_fit Embedding (init default_text_fields true)
           "java" "text" 16 10 ∅ [] (0%nat : @RandomState toy_sklearn)).
  reflexivity.
Defined.

(** With embeddings in place and still no frame, the embedding strategy asks
    for [fit] like the other three. *)
Example rank_before_fit_run :
  rank Embedding (set_embeddings embeddings_AB (init default_text_fields true))
    "java" "text" 16 10 ∅ [] (0%nat : @RandomState toy_sklearn)
  = (Raise (ValueError "Devi prima chiamare fit() per preparare il motore"),
     (0%nat : @RandomState toy_sklearn))
  ∧ rank Lexical (init default_text_fields true) "java" "text" 16 10 ∅ []
      (0%nat : @RandomState toy_sklearn)
    = (Raise (ValueError "Devi prima chiamare fit() per preparare il motore"),
       (0%nat : @RandomState toy_sklearn)).
Proof. split; reflexivity. Qed.

Lemma tfidf_scores_boost_ext_witness :
  tfidf_scores engine_AB "java" {["title" := 5%Q; "text" := 1%Q]}
    default_text_fields (np_zeros 2)
  = tfidf_scores engine_AB "java" ∅ default_text_fields (np_zeros 2).
Proof.
  apply (tfidf_scores_boost_ext engine_AB "java"
           {["title" := 5%Q; "text" := 1%Q]} ∅ default_text_fields (np_zeros 2)).
  by_evaluation.
Defined.

Lemma fit_establishes_invariant_witness :
  df engine_AB = Some corpus_AB
  ∧ Forall (λ f, ∃ cv X, vectorizers engine_AB !! f = Some cv
                         ∧ matrices engine_AB !! f = Some X
                         ∧ length X = length corpus_AB) default_text_fields.
Proof.
  apply (fit_establishes_invariant corpus_AB default_vectorizer_params
           default_text_fields true engine_AB).
  apply pair_eta_Ok. vm_compute. reflexivity.
Defined.

Lemma fit_missing_first_field_witness :
  fit [] default_vectorizer_params (init default_text_fields true)
  = (Raise (KeyError "section"), set_df [] (init default_text_fields true)).
Proof.
  apply (fit_missing_first_field [] default_vectorizer_params
           (init default_text_fields true) "section" ["question"; "text"]).
  - reflexivity.
  - by_evaluation.
Defined.

Lemma startup_courses_witness :
  ∃ courses,
    get_available_courses
      (startup_event courses_AB (init default_text_fields true) ∅).1 = Ok courses
    ∧ NoDup courses
    ∧ ∀ x, x ∈ courses ↔
           ∃ c, c ∈ courses_AB ∧ documents c ≠ [] ∧ x = Str (course c).
Proof.
  apply (startup_courses courses_AB (init default_text_fields true) ∅).
  by_evaluation.
Defined.

Lemma startup_aligned_witness :
  aligned (startup_event courses_AB (init default_text_fields true) ∅).1
    (flatten_documents courses_AB)
  ∧ fitted (startup_event courses_AB (init default_text_fields true) ∅).1.
Proof.
  apply (startup_aligned courses_AB default_text_fields true ∅).
  - vm_compute. reflexivity.
  - apply map_Forall_empty.
Defined.

Lemma create_then_load_witness :
  ∃ E, embeddings (set_embeddings embeddings_AB engine_AB) = Some E
       ∧ load_bert_embeddings "embeddings.bin" (init default_text_fields true)
           (<["embeddings.bin" := embeddings_AB]> ∅)
         = (true, set_embeddings E (init default_text_fields true)).
Proof.
  apply (create_then_load "embeddings.bin" engine_AB
           (set_embeddings embeddings_AB engine_AB)
           (init default_text_fields true) ∅
           (<["embeddings.bin" := embeddings_AB]> ∅)).
  reflexivity.
Defined.

Lemma load_or_create_idempotent_witness :
  load_or_create_bert_embeddings "embeddings.bin"
    (set_embeddings embeddings_AB engine_AB)
    (<["embeddings.bin" := embeddings_AB]> ∅)
  = (true, set_embeddings embeddings_AB engine_AB,
     <["embeddings.bin" := embeddings_AB]> ∅).
Proof.
  apply (load_or_create_idempotent "embeddings.bin" engine_AB
           (set_embeddings embeddings_AB engine_AB) ∅
           (<["embeddings.bin" := embeddings_AB]> ∅)).
  reflexivity.
Defined.

Lemma load_or_create_prefers_file_witness :
  load_or_create_bert_embeddings "embeddings.bin" engine_AB
    {["embeddings.bin" := embeddings_AB]}
  = (true, set_embeddings embeddings_AB engine_AB,
     {["embeddings.bin" := embeddings_AB]}).
Proof.
  apply (load_or_create_prefers_file "embeddings.bin" engine_AB
           {["embeddings.bin" := embeddings_AB]} embeddings_AB).
  apply lookup_singleton_eq.
Defined.

Lemma load_or_create_failure_witness :
  (∅ : gmap string (list (list Q))) !! "" = None
  ∧ (∅ : gmap string (list (list Q))) !! "" = None
  ∧ ((set_embeddings embeddings_AB engine_AB = engine_AB
      ∧ (∅ : gmap string (list (list Q))) = ∅
      ∧ (bert_available engine_AB = false ∨ df engine_AB = None
         ∨ ∃ d x, df engine_AB = Some d
                  ∧ encode_documents (document_text (columns d) <$> d)
                    = Raise x))
     ∨ (∃ d E, df engine_AB = Some d
               ∧ encode_documents (document_text (columns d) <$> d) = Ok E
               ∧ length E = length d
               ∧ set_embeddings embeddings_AB engine_AB
                 = set_embeddings E engine_AB
               ∧ pickle_dump "" ≠ Written)).
Proof.
  apply (load_or_create_failure "" engine_AB
           (set_embeddings embeddings_AB engine_AB) ∅ ∅).
  reflexivity.
Defined.

Lemma create_keeps_aligned_witness :
  aligned (set_embeddings embeddings_AB engine_AB) corpus_AB
  ∧ "bert" ∈ get_available_methods (set_embeddings embeddings_AB engine_AB).
Proof.
  apply (create_keeps_aligned "embeddings.bin" engine_AB
           (set_embeddings embeddings_AB engine_AB) corpus_AB ∅
           (<["embeddings.bin" := embeddings_AB]> ∅)).
  - split_and!; [reflexivity | unfold rows_aligned; by_evaluation | exact I].
  - reflexivity.
Defined.

Lemma search_inner_refusal_is_500_witness :
  ∃ detail, search engine_AB request_unknown 0%nat
            = (HTTPException 500 detail, 0%nat).
Proof.
  apply (search_inner_refusal_is_500 engine_AB request_unknown
           (0%nat : @RandomState toy_sklearn)).
  - by_evaluation.
  - simpl. lia.
  - left. by_evaluation.
Defined.

(** White space beyond ASCII is stripped too: a query of one no-break space
    is blank and answered with status 400 before the method is looked at. *)
Example search_blank_unicode :
  strip padded_java = "java"
  ∧ strip (query request_nbsp) = ""
  ∧ search engine_AB request_nbsp (0%nat : @RandomState toy_sklearn)
    = (HTTPException 400 "La query non può essere vuota",
       (0%nat : @RandomState toy_sklearn)).
Proof. split_and!; reflexivity. Qed.

Lemma search_response_witness :
  "nmf" = method (request_nmf 3)
  ∧ "java" = query (request_nmf 3)
  ∧ 2%nat = length [to_dict_row (columns corpus_AB) record_B 1;
                    to_dict_row (columns corpus_AB) record_A 0]
  ∧ (Z.of_nat 2 ≤ n_results (request_nmf 3) ≤ 100)
  ∧ StronglySorted (λ x y, (row_score y <= row_score x)%Q)
      [to_dict_row (columns corpus_AB) record_B 1;
       to_dict_row (columns corpus_AB) record_A 0]
  ∧ method (request_nmf 3) ∈ ["tfidf"; "svd"; "nmf"; "bert"].
Proof.
  apply (search_response engine_AB (request_nmf 3)
           (0%nat : @RandomState toy_sklearn) (1%nat : @RandomState toy_sklearn)
           {| results := [to_dict_row (columns corpus_AB) record_B 1;
                          to_dict_row (columns corpus_AB) record_A 0];
              response_method := "nmf"; response_query := "java";
              total_results := 2 |}).
  by_evaluation.
Defined.
